(** * OData-Connector: schema derivation and row projection (src/src/main.js)

    A shallow embedding of [getFields], [addSubmissionFields],
    [addRepeatFields], [getGDSType], [responseToRows],
    [handleGeoAccuracyField], [convertData] and [constructFileURL].

    JavaScript values are modelled by [jsval].  The global [metaDataMap] is a
    [Map] object that the code reads and writes with bracket notation
    ([metaDataMap[k]], [metaDataMap[k] = v]); bracket notation works on the
    object's own properties and falls back to [Map.prototype] and
    [Object.prototype], while [metaDataMap.clear()] only empties the internal
    entry list of the [Map].  The model keeps both parts apart. *)

From Stdlib Require Import String Ascii List Bool Arith ZArith Lia.
Import ListNotations.
Open Scope string_scope.
Set Warnings "-register-all".

(** A parsed JSON object keeps one entry per key, in insertion order. *)

(* ------------------------------------------------------------------ *)
(** ** String operations of JavaScript *)

Definition slash : ascii := "/"%char.
Definition dot : ascii := "."%char.
Definition colon : ascii := ":"%char.
Definition dash : ascii := "-"%char.
Definition underscore : ascii := "_"%char.
Definition letterT : ascii := "T"%char.

(** [s.split(c)] for a one-character separator [c]. *)
Fixpoint split_char (c : ascii) (s : string) : list string :=
  match s with
  | EmptyString => [""]
  | String d r =>
      let rest := split_char c r in
      if Ascii.eqb c d then "" :: rest
      else match rest with
           | h :: t => String d h :: t
           | [] => [String d ""]
           end
  end.

(** [s.split(sep)[0]] for a non-empty separator [sep]. *)
Fixpoint before_sub (sep s : string) : string :=
  if String.prefix sep s then ""
  else match s with
       | EmptyString => ""
       | String c r => String c (before_sub sep r)
       end.

(** [s.includes(sub)]. *)
Fixpoint includes (sub s : string) : bool :=
  String.prefix sub s ||
  match s with
  | EmptyString => false
  | String _ r => includes sub r
  end.

(** [s.replace(/c/g, d)] for single characters. *)
Fixpoint replace_char (c d : ascii) (s : string) : string :=
  match s with
  | EmptyString => EmptyString
  | String x r => String (if Ascii.eqb x c then d else x) (replace_char c d r)
  end.

(** [s.replace(/[...]/g, "")]: remove every character satisfying [p]. *)
Fixpoint remove_chars (p : ascii -> bool) (s : string) : string :=
  match s with
  | EmptyString => EmptyString
  | String x r => if p x then remove_chars p r else String x (remove_chars p r)
  end.

(** [s.substr(n)] and [s.substring(n)] with one argument [n <= length s]. *)
Definition substr_from (n : nat) (s : string) : string :=
  substring n (String.length s - n) s.

(** [arr.join(sep)] on strings. *)
Definition join (sep : string) (l : list string) : string := String.concat sep l.

(** Decimal rendering of a natural number ([n.toString()]). *)
Fixpoint dec_go (fuel n : nat) (acc : string) : string :=
  match fuel with
  | O => acc
  | S f =>
      let acc' := String (ascii_of_nat (48 + n mod 10)) acc in
      if Nat.ltb n 10 then acc' else dec_go f (n / 10) acc'
  end.
Definition nat_to_dec (n : nat) : string := dec_go (S n) n "".

Definition mem_str (x : string) (l : list string) : bool :=
  existsb (String.eqb x) l.

(* ------------------------------------------------------------------ *)
(** ** JavaScript values *)

(** A number is represented by the text its [ToString] produces (for a number
    parsed from JSON text such as [47.65] this is that text).  [JBuiltin k]
    is the value of a member [k] inherited from a built-in prototype (a
    built-in function, [Object.prototype] for [__proto__]). *)
Inductive jsval : Type :=
  | JUndef
  | JNull
  | JBool (b : bool)
  | JNum (repr : string)
  | JStr (s : string)
  | JArr (elems : list jsval)
  | JObj (fields : list (string * jsval))
  | JBuiltin (name : string).

(** Members of [Object.prototype]. *)
Definition object_proto_names : list string :=
  ["constructor"; "__defineGetter__"; "__defineSetter__"; "hasOwnProperty";
   "__lookupGetter__"; "__lookupSetter__"; "isPrototypeOf";
   "propertyIsEnumerable"; "toString"; "valueOf"; "__proto__";
   "toLocaleString"].

(** Members of [Map.prototype] ([size] is a getter without setter). *)
Definition map_proto_names : list string :=
  ["constructor"; "get"; "set"; "has"; "delete"; "clear"; "entries";
   "forEach"; "keys"; "size"; "values"].

(** Members of [Array.prototype] (ES2023). *)
Definition array_proto_names : list string :=
  ["at"; "concat"; "copyWithin"; "entries"; "every"; "fill"; "filter";
   "find"; "findIndex"; "findLast"; "findLastIndex"; "flat"; "flatMap";
   "forEach"; "includes"; "indexOf"; "join"; "keys"; "lastIndexOf"; "map";
   "pop"; "push"; "reduce"; "reduceRight"; "reverse"; "shift"; "slice";
   "some"; "sort"; "splice"; "toLocaleString"; "toReversed"; "toSorted";
   "toSpliced"; "toString"; "unshift"; "values"; "with"; "constructor"].

(** Members of [String.prototype] (ES2023, with the Annex B methods). *)
Definition string_proto_names : list string :=
  ["at"; "charAt"; "charCodeAt"; "codePointAt"; "concat"; "constructor";
   "endsWith"; "includes"; "indexOf"; "isWellFormed"; "lastIndexOf";
   "localeCompare"; "match"; "matchAll"; "normalize"; "padEnd"; "padStart";
   "repeat"; "replace"; "replaceAll"; "search"; "slice"; "split";
   "startsWith"; "substring"; "substr"; "toLocaleLowerCase";
   "toLocaleUpperCase"; "toLowerCase"; "toString"; "toUpperCase";
   "toWellFormed"; "trim"; "trimStart"; "trimEnd"; "trimLeft"; "trimRight";
   "valueOf"; "anchor"; "big"; "blink"; "bold"; "fixed"; "fontcolor";
   "fontsize"; "italics"; "link"; "small"; "strike"; "sub"; "sup"].

(** Members of [Number.prototype] and [Boolean.prototype]. *)
Definition number_proto_names : list string :=
  ["constructor"; "toExponential"; "toFixed"; "toPrecision"; "toString";
   "valueOf"; "toLocaleString"].
Definition boolean_proto_names : list string :=
  ["constructor"; "toString"; "valueOf"].

(** Outcome of running a piece of the program: a value, a thrown
    [TypeError], a loop that never exits, or a step into a built-in object
    (reading members of built-in functions), which the model does not
    describe. *)
Inductive outcome (A : Type) : Type :=
  | Ok (a : A)
  | TypeError
  | Diverges
  | Builtin.
Arguments Ok {A} a.
Arguments TypeError {A}.
Arguments Diverges {A}.
Arguments Builtin {A}.

Definition bind {A B} (m : outcome A) (k : A -> outcome B) : outcome B :=
  match m with
  | Ok a => k a
  | TypeError => TypeError
  | Diverges => Diverges
  | Builtin => Builtin
  end.
Notation "x <- m ;; k" := (bind m (fun x => k))
  (at level 61, m at next level, right associativity).

Fixpoint assoc (k : string) (l : list (string * jsval)) : option jsval :=
  match l with
  | [] => None
  | (k', v) :: r => if String.eqb k k' then Some v else assoc k r
  end.

(** Array index keys: the canonical decimal strings ["0"] .. [n-1]. *)
Fixpoint index_of_key (k : string) (i : nat) (l : list jsval) : option jsval :=
  match l with
  | [] => None
  | v :: r => if String.eqb k (nat_to_dec i) then Some v else index_of_key k (S i) r
  end.

Fixpoint str_index (k : string) (i : nat) (s : string) : option string :=
  match s with
  | EmptyString => None
  | String c r =>
      if String.eqb k (nat_to_dec i) then Some (String c EmptyString)
      else str_index k (S i) r
  end.

(** Property read [v[k]]. *)
Definition get_prop (v : jsval) (k : string) : outcome jsval :=
  match v with
  | JUndef | JNull => TypeError
  | JBool _ =>
      Ok (if mem_str k (boolean_proto_names ++ object_proto_names)
          then JBuiltin k else JUndef)
  | JNum _ =>
      Ok (if mem_str k (number_proto_names ++ object_proto_names)
          then JBuiltin k else JUndef)
  | JStr s =>
      match str_index k 0 s with
      | Some c => Ok (JStr c)
      | None =>
          if String.eqb k "length" then Ok (JNum (nat_to_dec (String.length s)))
          else Ok (if mem_str k (string_proto_names ++ object_proto_names)
                   then JBuiltin k else JUndef)
      end
  | JArr l =>
      match index_of_key k 0 l with
      | Some x => Ok x
      | None =>
          if String.eqb k "length" then Ok (JNum (nat_to_dec (List.length l)))
          else Ok (if mem_str k (array_proto_names ++ object_proto_names)
                   then JBuiltin k else JUndef)
      end
  | JObj f =>
      match assoc k f with
      | Some x => Ok x
      | None => Ok (if mem_str k object_proto_names then JBuiltin k else JUndef)
      end
  | JBuiltin p =>
      (* [Object.prototype] (read through [__proto__]) has the members of
         [object_proto_names] as own properties and a [null] prototype *)
      if String.eqb p "__proto__" then
        if String.eqb k "__proto__" then Ok JNull
        else Ok (if mem_str k object_proto_names then JBuiltin k else JUndef)
      else Builtin
  end.

(** The [in] operator [k in v]: a [TypeError] on primitives. *)
Definition has_prop (v : jsval) (k : string) : outcome bool :=
  match v with
  | JUndef | JNull | JBool _ | JNum _ | JStr _ => TypeError
  | JArr l =>
      Ok (match index_of_key k 0 l with
          | Some _ => true
          | None => String.eqb k "length"
                    || mem_str k (array_proto_names ++ object_proto_names)
          end)
  | JObj f =>
      Ok (match assoc k f with
          | Some _ => true
          | None => mem_str k object_proto_names
          end)
  | JBuiltin p =>
      if String.eqb p "__proto__" then Ok (mem_str k object_proto_names) else Builtin
  end.

Definition is_nullish (v : jsval) : bool :=
  match v with JUndef | JNull => true | _ => false end.

Definition is_str (s : string) (v : jsval) : bool :=
  match v with JStr t => String.eqb s t | _ => false end.

(* ------------------------------------------------------------------ *)
(** ** The [metaDataMap] global *)

(** [entries] is the internal entry list of the [Map] (what [get], [set] and
    [clear] work on; the code never calls [set]); [props] are the own
    properties created by [metaDataMap[k] = v], with string values. *)
Record jsmap := { entries : list (string * string); props : list (string * string) }.

Definition empty_map : jsmap := {| entries := []; props := [] |}.

Fixpoint sassoc (k : string) (l : list (string * string)) : option string :=
  match l with
  | [] => None
  | (k', v) :: r => if String.eqb k k' then Some v else sassoc k r
  end.

Fixpoint supdate (k v : string) (l : list (string * string)) : list (string * string) :=
  match l with
  | [] => [(k, v)]
  | (k', v') :: r => if String.eqb k k' then (k, v) :: r else (k', v') :: supdate k v r
  end.

(** [metaDataMap[k]]: an own property, else a member of [Map.prototype] or
    [Object.prototype]; [size] is a getter returning the number of internal
    entries. *)
Definition map_get (m : jsmap) (k : string) : jsval :=
  match sassoc k (props m) with
  | Some v => JStr v
  | None =>
      if String.eqb k "size" then JNum (nat_to_dec (List.length (entries m)))
      else if mem_str k (map_proto_names ++ object_proto_names) then JBuiltin k
      else JUndef
  end.

(** [metaDataMap[k] = v] (sloppy mode): assigning through the inherited
    getter-only [size] or to [__proto__] with a string value has no effect;
    any other name gets an own property. *)
Definition map_assign (m : jsmap) (k v : string) : jsmap :=
  if String.eqb k "size" || String.eqb k "__proto__" then m
  else {| entries := entries m; props := supdate k v (props m) |}.

(** [metaDataMap.clear()]. *)
Definition map_clear (m : jsmap) : jsmap := {| entries := []; props := props m |}.

(* ------------------------------------------------------------------ *)
(** ** Field descriptors and the first loop of [getFields] *)

Record descriptor := { path : string; name : string; type : string }.

(** for (...) if (ODataType === 'structure' || ODataType === 'repeat')
      metaDataMap[json[i]['name']] = "" + ODataType; *)
Fixpoint collect_meta (m : jsmap) (json : list descriptor) : jsmap :=
  match json with
  | [] => m
  | d :: r =>
      let m' := if String.eqb (type d) "structure" || String.eqb (type d) "repeat"
                then map_assign m (name d) (type d) else m in
      collect_meta m' r
  end.

(* ------------------------------------------------------------------ *)
(** ** Owning table of a field (lines 606-617) *)

(** The loop condition: [metaDataMap[seg] == null || metaDataMap[seg] === "structure"]. *)
Definition leaf_or_group (m : jsmap) (seg : string) : bool :=
  is_nullish (map_get m seg) || is_str "structure" (map_get m seg).

Fixpoint drop_while {A} (p : A -> bool) (l : list A) : list A :=
  match l with
  | [] => []
  | x :: r => if p x then drop_while p r else l
  end.

(** [while (a.length > 0 && p(a[a.length - 1])) a.pop();] *)
Definition pop_while {A} (p : A -> bool) (l : list A) : list A :=
  rev (drop_while p (rev l)).

(** [splice(0, 1)] *)
Definition splice_first {A} (l : list A) : list A :=
  match l with [] => [] | _ :: r => r end.

(** [splice(-1, 1)] *)
Definition splice_last {A} (l : list A) : list A := removelast l.

Definition schemaTableName (m : jsmap) (p : string) : string :=
  join "." (splice_first (pop_while (leaf_or_group m) (split_char slash p))).

(* ------------------------------------------------------------------ *)
(** ** Columns *)

Inductive conceptType := Dimension | Metric.

Inductive gdsType := NUMBER | TEXT | BOOLEAN | YEAR_MONTH_DAY
                   | YEAR_MONTH_DAY_HOUR | LATITUDE_LONGITUDE | URL.

Definition getGDSType (t : string) : conceptType * gdsType :=
  if String.eqb t "int" then (Metric, NUMBER)
  else if String.eqb t "string" then (Dimension, TEXT)
  else if String.eqb t "boolean" then (Metric, BOOLEAN)
  else if String.eqb t "decimal" then (Metric, NUMBER)
  else if String.eqb t "date" then (Dimension, YEAR_MONTH_DAY)
  else if String.eqb t "time" then (Dimension, TEXT)
  else if String.eqb t "dateTime" then (Dimension, YEAR_MONTH_DAY_HOUR)
  else if String.eqb t "geopoint" then (Dimension, LATITUDE_LONGITUDE)
  else if String.eqb t "geotrace" then (Dimension, TEXT)
  else if String.eqb t "geoshape" then (Dimension, TEXT)
  else if String.eqb t "binary" then (Dimension, URL)
  else if String.eqb t "barcode" then (Dimension, TEXT)
  else if String.eqb t "intent" then (Dimension, TEXT)
  else (Dimension, TEXT).

(** A column built with [fields.newDimension()] or [fields.newMetric()];
    [fid] is the counter value whose [toString()] is passed to [setId]. *)
Record field := { fid : nat; fname : string; fconcept : conceptType; ftype : gdsType }.

(** The global state [getFields] reads and writes. *)
Record gstate := { meta : jsmap; id : nat }.

Definition addSubmissionFields (n : nat) : list field * nat :=
  let str := snd (getGDSType "string") in
  let dt := snd (getGDSType "dateTime") in
  ([ {| fid := n; fname := "__system/submitterName"; fconcept := Dimension; ftype := str |};
     {| fid := n + 1; fname := "__system/reviewState"; fconcept := Dimension; ftype := str |};
     {| fid := n + 2; fname := "__id"; fconcept := Dimension; ftype := str |};
     {| fid := n + 3; fname := "__system/submissionDate"; fconcept := Dimension;
        ftype := dt |} ], n + 4).

(** The disambiguating suffix of [addRepeatFields] and [responseToRows]:
    [split("."); splice(-1, 1); splice(0, 1);] drop trailing structures,
    [join("-")]. *)
Definition repeatTableKey (m : jsmap) (table : string) : string :=
  join "-" (pop_while (fun s => is_str "structure" (map_get m s))
                      (splice_first (splice_last (split_char dot table)))).

Definition addRepeatFields (m : jsmap) (n : nat) (table : string) : list field * nat :=
  let tbl := join "/" (tl (split_char dot table)) in
  let tableKey := repeatTableKey m table in
  let key := if Nat.ltb 0 (String.length tableKey)
             then "/__Submissions-" ++ tableKey ++ "-id" else "/__Submissions-id" in
  let str := snd (getGDSType "string") in
  ([ {| fid := n; fname := tbl ++ key; fconcept := Dimension; ftype := str |};
     {| fid := n + 1; fname := tbl ++ "/__id"; fconcept := Dimension; ftype := str |} ],
   n + 2).

Definition is_latlon (t : gdsType) : bool :=
  match t with LATITUDE_LONGITUDE => true | _ => false end.

(** The columns one matching leaf adds (lines 627-661). *)
Definition leaf_fields (d : descriptor) (n : nat) : list field * nat :=
  let '(ct, dt) := getGDSType (type d) in
  let nameOfField := replace_char dash underscore (substr_from 1 (path d)) in
  match ct with
  | Dimension =>
      if is_latlon dt then
        ([ {| fid := n; fname := nameOfField; fconcept := Dimension; ftype := dt |};
           {| fid := n + 1; fname := nameOfField ++ "-accuracy"; fconcept := Metric;
              ftype := NUMBER |} ], n + 2)
      else ([ {| fid := n; fname := nameOfField; fconcept := Dimension; ftype := dt |} ], n + 1)
  | Metric =>
      ([ {| fid := n; fname := nameOfField; fconcept := Metric; ftype := dt |} ], n + 1)
  end.

Definition skipped_kind (d : descriptor) : bool :=
  String.eqb (type d) "structure" || String.eqb (name d) "instanceID"
  || String.eqb (type d) "repeat".

(** Whether the second loop of [getFields] skips a leaf owned by [stn]. *)
Definition other_table (req : string) (tableNames : list string) (stn : string) : bool :=
  if String.eqb req "Submissions" then mem_str stn tableNames
  else negb (String.eqb stn (substr_from 12 req)).

(** The second loop of [getFields] (lines 592-663). *)
Fixpoint fields_loop (m : jsmap) (req : string) (tableNames : list string)
    (json : list descriptor) (n : nat) : list field * nat :=
  match json with
  | [] => ([], n)
  | d :: r =>
      if skipped_kind d then fields_loop m req tableNames r n
      else if other_table req tableNames (schemaTableName m (path d))
      then fields_loop m req tableNames r n
      else let '(fs, n') := leaf_fields d n in
           let '(rest, n'') := fields_loop m req tableNames r n' in
           (List.app fs rest, n'')
  end.

(** [getFields]: [json] is the parsed field list of [testSchema],
    [userRequestedTable] the ['table'] user property and [tableNamesProp]
    the ['tableNames'] user property after [split(UNIQUE_SEPARATOR)]. *)
Definition getFields (st : gstate) (json : list descriptor) (userRequestedTable : string)
    (tableNamesProp : list string) : gstate * list field :=
  let m := collect_meta (map_clear (meta st)) json in
  let '(syn, n1) :=
    if String.eqb userRequestedTable "Submissions" then addSubmissionFields (id st)
    else addRepeatFields m (id st) userRequestedTable in
  let tableNames :=
    map (substr_from 12) (filter (fun e => negb (String.eqb e "Submissions")) tableNamesProp) in
  let '(fs, n2) := fields_loop m userRequestedTable tableNames json n1 in
  ({| meta := m; id := n2 |}, List.app syn fs).

(* ------------------------------------------------------------------ *)
(** ** Value conversion *)

(** The ['dscc.path'], ['projectId'] and ['xmlFormId'] user properties. *)
Record userprops := { dscc_path : string; projectId : string; xmlFormId : string }.

Definition bool_text (b : bool) : string := if b then "true" else "false".

(** [ToString] of an element inside [Array.prototype.join] (where [null]
    and [undefined] become the empty string).  An object whose own
    [toString] member is data and not a function makes [ToString] throw. *)
Fixpoint join_text (v : jsval) : outcome string :=
  match v with
  | JUndef | JNull => Ok ""
  | JBool b => Ok (bool_text b)
  | JNum r => Ok r
  | JStr s => Ok s
  | JArr l =>
      let fix go (l : list jsval) : outcome (list string) :=
        match l with
        | [] => Ok []
        | x :: r => s <- join_text x ;; t <- go r ;; Ok (s :: t)
        end in
      ss <- go l ;; Ok (join "," ss)
  | JObj f =>
      match assoc "toString" f with
      | Some _ => TypeError
      | None => Ok "[object Object]"
      end
  | JBuiltin _ => Builtin
  end.

Fixpoint join_values (sep : string) (l : list jsval) : outcome string :=
  match l with
  | [] => Ok ""
  | [x] => join_text x
  | x :: r => s <- join_text x ;; t <- join_values sep r ;; Ok (s ++ sep ++ t)
  end.

Definition constructFileURL (u : userprops) (fileName : jsval) (instanceID : string)
    : outcome jsval :=
  let mediaPath := before_sub "/v1" (dscc_path u) ++ "/#/dl" in
  s <- join_values "/" [JStr mediaPath; JStr "projects"; JStr (projectId u); JStr "forms";
                        JStr (xmlFormId u); JStr "Submissions"; JStr ("uuid%3A" ++ instanceID);
                        JStr "attachments"; fileName] ;;
  Ok (JStr s).

Definition hex_digit (n : nat) : ascii :=
  if Nat.ltb n 10 then ascii_of_nat (48 + n) else ascii_of_nat (87 + n).

(** The escaping of [JSON.stringify] for one character. *)
Definition json_escape (c : ascii) : string :=
  let n := nat_of_ascii c in
  if Nat.eqb n 34 then "\" ++ String c ""
  else if Nat.eqb n 92 then "\\"
  else if Nat.eqb n 8 then "\b"
  else if Nat.eqb n 12 then "\f"
  else if Nat.eqb n 10 then "\n"
  else if Nat.eqb n 13 then "\r"
  else if Nat.eqb n 9 then "\t"
  else if Nat.ltb n 32 then "\u00" ++ String (hex_digit (n / 16)) (String (hex_digit (n mod 16)) "")
  else String c "".

Fixpoint json_quote_go (s : string) : string :=
  match s with
  | EmptyString => ""
  | String c r => json_escape c ++ json_quote_go r
  end.
Definition json_quote (s : string) : string :=
  String "034"%char (json_quote_go s ++ String "034"%char "").

(** [JSON.stringify] on a value: inside an array [undefined] and functions
    become [null], inside an object their members are left out. *)
Fixpoint stringify (v : jsval) : option string :=
  match v with
  | JUndef | JBuiltin _ => None
  | JNull => Some "null"
  | JBool b => Some (bool_text b)
  | JNum r => Some r
  | JStr s => Some (json_quote s)
  | JArr l =>
      let fix go (l : list jsval) : list string :=
        match l with
        | [] => []
        | x :: r => match stringify x with Some t => t | None => "null" end :: go r
        end in
      Some ("[" ++ join "," (go l) ++ "]")
  | JObj f =>
      let fix go (f : list (string * jsval)) : list string :=
        match f with
        | [] => []
        | (k, x) :: r =>
            match stringify x with
            | Some t => (json_quote k ++ ":" ++ t) :: go r
            | None => go r
            end
        end in
      Some ("{" ++ join "," (go f) ++ "}")
  end.

(** [typeof data === "object"] for a non-null value. *)
Definition typeof_object (v : jsval) : bool :=
  match v with
  | JArr _ | JObj _ => true
  | JBuiltin k => String.eqb k "__proto__"
  | _ => false
  end.

Definition is_dash_or_T (c : ascii) : bool := Ascii.eqb c dash || Ascii.eqb c letterT.

(** [convertData(data, type, instanceId)] (lines 1080-1117).  Calling a
    string method ([replace]) on a value that is not a string throws. *)
Definition convertData (u : userprops) (data : jsval) (t : gdsType) (instanceId : string)
    : outcome jsval :=
  match data with
  | JNull => Ok JNull
  | _ =>
      match t with
      | URL => constructFileURL u data instanceId
      | YEAR_MONTH_DAY_HOUR =>
          match data with
          | JStr s => Ok (JStr (hd "" (split_char colon (remove_chars is_dash_or_T s))))
          | _ => TypeError
          end
      | YEAR_MONTH_DAY =>
          match data with
          | JStr s => Ok (JStr (remove_chars (Ascii.eqb dash) s))
          | _ => TypeError
          end
      | LATITUDE_LONGITUDE =>
          c <- get_prop data "coordinates" ;;
          match c with
          | JArr l => s <- join_values ", " (rev (firstn 2 l)) ;; Ok (JStr s)
          | _ => TypeError
          end
      | TEXT =>
          if typeof_object data then
            b <- has_prop data "type" ;;
            if b then match stringify data with
                      | Some s => Ok (JStr s)
                      | None => Ok JUndef
                      end
            else Ok data
          else Ok data
      | NUMBER | BOOLEAN => Ok data
      end
  end.

(* ------------------------------------------------------------------ *)
(** ** Row projection: [responseToRows] (lines 955-1052) *)

(** The global and user-property state [responseToRows] reads. *)
Record rstate := { rmeta : jsmap; table : string; user : userprops }.

Definition isSubmissions (st : rstate) : bool := String.eqb (table st) "Submissions".

(** [submissions[key].split(":")[1]]. *)
Definition id_token (rec : jsval) (key : string) : outcome (option string) :=
  v <- get_prop rec key ;;
  match v with
  | JStr s => Ok (nth_error (split_char colon s) 1)
  | _ => TypeError
  end.

Definition linkage_key (m : jsmap) (table : string) : string :=
  let tableKey := repeatTableKey m table in
  if Nat.ltb 0 (String.length tableKey) then "__Submissions-" ++ tableKey ++ "-id"
  else "__Submissions-id".

Definition instance_id (st : rstate) (rec : jsval) : outcome (option string) :=
  if isSubmissions st then id_token rec "__id"
  else id_token rec (linkage_key (rmeta st) (table st)).

(** Number of trailing segments the trimming loop steps over before it meets
    one that is neither a structure nor absent; [None] if there is none. *)
Fixpoint count_trailing (m : jsmap) (rl : list string) : option nat :=
  match rl with
  | [] => None
  | s :: r => if leaf_or_group m s then option_map S (count_trailing m r) else Some 0
  end.

(** [let i = splitPath.length - 1; while (splitPath.length > 0 && (...)) i--;
    splitPath = splitPath.slice(i + 1);].  Once [i] is negative the loop
    reads [metaDataMap[undefined]], the property named ["undefined"]; if that
    one also satisfies the condition the loop never ends. *)
Definition trim_path (m : jsmap) (sp : list string) : outcome (list string) :=
  match count_trailing m (rev sp) with
  | Some k => Ok (skipn (List.length sp - k) sp)
  | None => if leaf_or_group m "undefined" then Diverges else Ok sp
  end.

(** [handleGeoAccuracyField(splitPath)]. *)
Definition handleGeoAccuracyField (sp : list string) : outcome (list string) :=
  match rev sp with
  | [] => TypeError
  | last :: _ =>
      if includes "-accuracy" last then
        Ok (List.app (removelast sp)
              [substring 0 (String.length last - 9) last; "properties"; "accuracy"])
      else Ok sp
  end.

(** The navigation loop; [None] is the early [row.push(null)]. *)
Fixpoint walk (v : jsval) (segs : list string) : outcome (option jsval) :=
  match segs with
  | [] => Ok (Some v)
  | k :: r =>
      match v with
      | JNull => Ok None
      | _ => b <- has_prop v k ;;
             if b then (x <- get_prop v k ;; walk x r) else Ok None
      end
  end.

(** The body of [requestedFields.forEach] for one column. *)
Definition project_field (st : rstate) (instanceID : option string) (rec : jsval)
    (f : field) : outcome jsval :=
  let sp := split_char slash (fname f) in
  sp1 <- (if isSubmissions st then Ok sp else trim_path (rmeta st) sp) ;;
  sp2 <- handleGeoAccuracyField sp1 ;;
  r <- walk rec sp2 ;;
  match r with
  | None => Ok JNull
  | Some d => convertData (user st) d (ftype f) (match instanceID with Some i => i | None => "" end)
  end.

Fixpoint mapM {A B} (f : A -> outcome B) (l : list A) : outcome (list B) :=
  match l with
  | [] => Ok []
  | x :: r => y <- f x ;; ys <- mapM f r ;; Ok (y :: ys)
  end.

Definition project_record (st : rstate) (fs : list field) (rec : jsval) : outcome (list jsval) :=
  iid <- instance_id st rec ;;
  mapM (project_field st iid rec) fs.

Definition responseToRows (st : rstate) (requestedFields : list field) (response : list jsval)
    : outcome (list (list jsval)) :=
  mapM (project_record st requestedFields) response.

(* ------------------------------------------------------------------ *)
(** ** Definitions used in the statements *)

(** The accuracy companion [getFields] emits right after a geo column. *)
Definition accuracy_of (c : field) : field :=
  {| fid := S (fid c); fname := fname c ++ "-accuracy"; fconcept := Metric; ftype := NUMBER |}.

Definition geo_followed (L : list field) : Prop :=
  forall k c, nth_error L k = Some c -> ftype c = LATITUDE_LONGITUDE ->
              nth_error L (S k) = Some (accuracy_of c).

Definition ends_not_geo (L : list field) : Prop :=
  forall c, nth_error L (List.length L - 1) = Some c -> ftype c <> LATITUDE_LONGITUDE.

(** The table identity of a field path as the spec words it: [idx] maps the
    name of every structural node to ["group"] or ["repeat"]; drop trailing
    segments absent from [idx] or mapped to ["group"], drop the leading empty
    segment, join with [.]. *)
Definition spec_table_identity (idx : list (string * string)) (p : string) : string :=
  join "." (tl (pop_while (fun s => match sassoc s idx with
                                    | None => true
                                    | Some k => String.eqb k "group"
                                    end) (split_char slash p))).

(** The spec's metadata index of a descriptor list: one linear scan
    recording [name -> group] for a structure and [name -> repeat] for a
    repeat (a later descriptor overwrites an earlier one of the same name). *)
Definition spec_record (idx : list (string * string)) (d : descriptor) : list (string * string) :=
  if String.eqb (type d) "structure" then supdate (name d) "group" idx
  else if String.eqb (type d) "repeat" then supdate (name d) "repeat" idx
  else idx.

Definition spec_index (json : list descriptor) : list (string * string) :=
  fold_left spec_record json [].

Definition spec_kind (t : string) : string :=
  if String.eqb t "structure" then "group" else t.

Definition structural (d : descriptor) : bool :=
  String.eqb (type d) "structure" || String.eqb (type d) "repeat".

(** Type of the last structural descriptor named [x]. *)
Fixpoint last_struct_type (json : list descriptor) (x : string) : option string :=
  match json with
  | [] => None
  | d :: r =>
      match last_struct_type r x with
      | Some t => Some t
      | None => if structural d && String.eqb (name d) x then Some (type d) else None
      end
  end.

(** The disambiguating suffix of a repeat table's linkage column as the
    spec words it: the dotted table chain without its leading root marker
    and its own trailing repeat name, trailing segments [idx] maps to
    ["group"] dropped, the rest joined with [-]. *)
Definition spec_linkage_suffix (idx : list (string * string)) (table : string) : string :=
  join "-" (pop_while (fun s => match sassoc s idx with
                                | Some k => String.eqb k "group"
                                | None => false
                                end) (tl (removelast (split_char dot table)))).

(* ------------------------------------------------------------------ *)
(** ** Sample inputs *)

Definition gs0 : gstate := {| meta := empty_map; id := 0 |}.

Definition u0 : userprops :=
  {| dscc_path := "https://sandbox.getodk.cloud/v1"; projectId := "4"; xmlFormId := "f" |}.

Definition tn0 : list string := ["Submissions"; "Submissions.repeat1"].

(** The field list shown in the comment of [getFields]. *)
Definition ds_sample : list descriptor :=
  [ {| path := "/q1"; name := "q1"; type := "string" |};
    {| path := "/repeat1"; name := "repeat1"; type := "repeat" |};
    {| path := "/repeat1/q2"; name := "q2"; type := "string" |};
    {| path := "/repeat1/group1"; name := "group1"; type := "structure" |};
    {| path := "/repeat1/group1/q3"; name := "q3"; type := "string" |};
    {| path := "/loc"; name := "loc"; type := "geopoint" |} ].

(** A repeat holding a question named [size]. *)
Definition ds_size : list descriptor :=
  [ {| path := "/repeat1"; name := "repeat1"; type := "repeat" |};
    {| path := "/repeat1/size"; name := "size"; type := "int" |} ].

(** A question whose dashed name becomes [__proto__]. *)
Definition ds_proto : list descriptor :=
  [ {| path := "/_-proto__"; name := "_-proto__"; type := "string" |} ].

(** A repeat [inner] inside a group named [size] inside a repeat [outer]. *)
Definition ds_nested : list descriptor :=
  [ {| path := "/outer"; name := "outer"; type := "repeat" |};
    {| path := "/outer/size"; name := "size"; type := "structure" |};
    {| path := "/outer/size/inner"; name := "inner"; type := "repeat" |};
    {| path := "/outer/size/inner/q"; name := "q"; type := "string" |} ].

Definition tn_nested : list string :=
  ["Submissions"; "Submissions.outer"; "Submissions.outer.size.inner"].

(** Two forms whose schemas are asked for one after the other: the first
    has a repeat [q1], the second a question [q1] inside its repeat [rep]. *)
Definition ds_form1 : list descriptor :=
  [ {| path := "/q1"; name := "q1"; type := "repeat" |} ].

Definition ds_form2 : list descriptor :=
  [ {| path := "/rep"; name := "rep"; type := "repeat" |};
    {| path := "/rep/q1"; name := "q1"; type := "string" |} ].

Definition root_state (m : jsmap) : rstate := {| rmeta := m; table := "Submissions"; user := u0 |}.

(* ================================================================== *)
(** * The connector entry points around the schema code *)

(** ** More string operations *)

(** [s.split(sep)] for a non-empty separator [sep]: scan from the left and
    cut at every occurrence of [sep].  Every step consumes a character or an
    occurrence, so [String.length s] steps suffice. *)
Fixpoint split_go (fuel : nat) (sep cur s : string) : list string :=
  match fuel with
  | O => [cur ++ s]
  | S f =>
      match s with
      | EmptyString => [cur]
      | String c r =>
          if String.prefix sep s
          then cur :: split_go f sep "" (substr_from (String.length sep) s)
          else split_go f sep (cur ++ String c "") r
      end
  end.
Definition split_sub (sep s : string) : list string :=
  split_go (String.length s) sep "" s.

(** Whether [c] occurs in [s]. *)
Fixpoint has_char (c : ascii) (s : string) : bool :=
  match s with
  | EmptyString => false
  | String d r => Ascii.eqb c d || has_char c r
  end.

(** [s.lastIndexOf(c)] for one character: [-1] when [c] does not occur. *)
Fixpoint lastIndexOf_go (c : ascii) (s : string) (i acc : Z) : Z :=
  match s with
  | EmptyString => acc
  | String d r => lastIndexOf_go c r (i + 1) (if Ascii.eqb c d then i else acc)
  end.
Definition lastIndexOf (c : ascii) (s : string) : Z := lastIndexOf_go c s 0 (-1).

(** [s.substr(0, n)]: a negative length gives the empty string. *)
Definition substr0 (s : string) (n : Z) : string := substring 0 (Z.to_nat n) s.

(** [arr.slice(start, end)] for [0 <= start] and an integer [end]; a
    negative [end] counts from the end of the array. *)
Definition slice {A} (l : list A) (start : nat) (e : Z) : list A :=
  let len := Z.of_nat (List.length l) in
  let fin := if (e <? 0)%Z then Z.max (len + e) 0 else Z.min e len in
  firstn (Z.to_nat fin - start) (skipn start l).

(** [arr[i]] for an integer [i]: [undefined] ([None]) out of range. *)
Definition nth_z {A} (l : list A) (i : Z) : option A :=
  if (i <? 0)%Z then None else nth_error l (Z.to_nat i).

(** [n.toString()] for an integer [n] (below [10^21] in magnitude). *)
Fixpoint pos_dec_go (fuel : nat) (z : Z) (acc : string) : string :=
  match fuel with
  | O => acc
  | S f =>
      let acc' := String (ascii_of_nat (48 + Z.to_nat (z mod 10))) acc in
      if (z <? 10)%Z then acc' else pos_dec_go f (z / 10) acc'
  end.
Definition z_to_dec (z : Z) : string :=
  let d := pos_dec_go (S (Z.to_nat (Z.log2 (Z.abs z)))) (Z.abs z) "" in
  if (z <? 0)%Z then "-" ++ d else d.

Definition UNIQUE_SEPARATOR : string := "MY_SEPARATOR".
Definition AUTH_TIMEOUT : Z := 24.

(** ** [parseURL] (lines 495-502) *)

(** [[base_URL, project_id, form_id]]; [project_id] is [undefined]
    ([None]) when the path has fewer than three [/]-separated parts. *)
Record url_parts := { base_URL : string; project_id : option string; form_id : string }.

Definition parseURL (p : string) : url_parts :=
  let parts_of_path := split_char slash p in
  let length := Z.of_nat (List.length parts_of_path) in
  (* [split] returns at least one part, so [parts_of_path[length-1]] exists *)
  let lastp := last parts_of_path "" in
  {| base_URL := hd "" parts_of_path ++ "//" ++ join "/" (slice parts_of_path 2 (length - 4));
     project_id := nth_z parts_of_path (length - 3);
     form_id := substr0 lastp (Z.of_nat (String.length lastp) - 4) |}.

(** ** [isTableInTableNames] (lines 504-511) *)

Fixpoint isTableInTableNames (tableNames : list string) (table : string) : bool :=
  match tableNames with
  | [] => false
  | possibleTableName :: r =>
      if String.eqb possibleTableName table then true else isTableInTableNames r table
  end.

(** ** Apps Script services *)

(** What a call can throw: a [UserError] raised with
    [cc.newUserError().setText(text).throwException()], an exception of
    [UrlFetchApp.fetch], a [SyntaxError] of [JSON.parse], a [TypeError], or
    a behaviour of the platform the model does not describe. *)
Inductive exn := UserError (text : string) | FetchError | SyntaxError | TypeErr | Unmodelled.

(** The options object passed to [UrlFetchApp.fetch]. *)
Record request := { rmethod : string; rcontentType : option string;
                    rheaders : list (string * string); rpayload : option string }.

(** The [HTTPResponse]: its status and its text (what [JSON.parse] reads). *)
Record http_response := { code : Z; content : string }.

(** The persistent state: the user properties of [PropertiesService] and
    the requests sent so far (URL and options, oldest first). *)
Record world := { uprops : list (string * string); sent : list (string * request) }.

(** The platform: [http n u r] is the answer to the [n]-th request sent
    ([None]: [fetch] throws); [json_parse] is [JSON.parse] ([None]: a
    [SyntaxError]); [date_parse] is [Date.parse] in milliseconds ([None]:
    [NaN]); [date_toString t] is [new Date(t).toString()]. *)
Record env := {
  http : nat -> string -> request -> option http_response;
  json_parse : string -> option jsval;
  date_parse : string -> option Z;
  date_toString : Z -> string }.

Inductive res (A : Type) : Type := Val (a : A) | Exc (e : exn).
Arguments Val {A} a.
Arguments Exc {A} e.

(** A call runs on the world and returns a value or an exception; what it
    wrote to the user properties before throwing stays written. *)
Definition M (A : Type) : Type := world -> res A * world.

Definition ret {A} (a : A) : M A := fun w => (Val a, w).
Definition throw {A} (e : exn) : M A := fun w => (Exc e, w).
Definition mbind {A B} (m : M A) (k : A -> M B) : M B :=
  fun w => let '(r, w') := m w in
           match r with Val a => k a w' | Exc e => (Exc e, w') end.
Notation "x <-- m ;;; k" := (mbind m (fun x => k))
  (at level 61, m at next level, right associativity).

(** [try { m } catch (error) { ...throwException(); }]. *)
Definition catch_as {A} (m : M A) (e : exn) : M A :=
  fun w => let '(r, w') := m w in
           match r with Val a => (Val a, w') | Exc _ => (Exc e, w') end.

Definition lift {A} (o : outcome A) : M A :=
  match o with
  | Ok a => ret a
  | TypeError => throw TypeErr
  | Diverges | Builtin => throw Unmodelled
  end.

Fixpoint mmapM {A B} (f : A -> M B) (l : list A) : M (list B) :=
  match l with
  | [] => ret []
  | x :: r => y <-- f x ;;; ys <-- mmapM f r ;;; ret (y :: ys)
  end.

(** [properties.getProperty(k)]: [None] is [null]. *)
Definition getProperty (k : string) : M (option string) :=
  fun w => (Val (sassoc k (uprops w)), w).

Definition setProperty (k v : string) : M unit :=
  fun w => (Val tt, {| uprops := supdate k v (uprops w); sent := sent w |}).

Definition deleteAllProperties : M unit :=
  fun w => (Val tt, {| uprops := []; sent := sent w |}).

(** [setProperty] with a computed value: the service stores strings; what
    it does with another value is not modelled. *)
Definition prop_value (v : jsval) : M string :=
  match v with JStr s => ret s | _ => throw Unmodelled end.

Definition fetch (E : env) (u : string) (r : request) : M http_response :=
  fun w =>
    let w' := {| uprops := uprops w; sent := List.app (sent w) [(u, r)] |} in
    match http E (List.length (sent w)) u r with
    | Some x => (Val x, w')
    | None => (Exc FetchError, w')
    end.

Definition parse_json (E : env) (s : string) : M jsval :=
  match json_parse E s with Some v => ret v | None => throw SyntaxError end.

(** [for (const x of v)] and [...v]: arrays yield their elements and
    strings their characters; other values are not iterable. *)
Definition iterate (v : jsval) : M (list jsval) :=
  match v with
  | JArr l => ret l
  | JStr s => ret (map (fun c => JStr (String c "")) (list_ascii_of_string s))
  | JBuiltin _ => throw Unmodelled
  | _ => throw TypeErr
  end.

(** The options of a GET request carrying [user.getProperty('dscc.token')]:
    ['Bearer ' + null] is ["Bearer null"]. *)
Definition bearer (tok : option string) : string :=
  "Bearer " ++ match tok with Some t => t | None => "null" end.

Definition get_options (tok : option string) : request :=
  {| rmethod := "GET"; rcontentType := None;
     rheaders := [("Authorization", bearer tok)]; rpayload := None |}.

(** ** Authentication (lines 56-267) *)

(** [Math.abs(currTime - Date.parse(timestamp)) / 36e5 > AUTH_TIMEOUT].  An
    unparsable timestamp gives [NaN], and [NaN > 24] is false.  For integral
    millisecond counts below [2^53] the quotient is [> 24] exactly when the
    difference exceeds [24 * 3600000]. *)
Definition expired (E : env) (now : Z) (timestamp : string) : bool :=
  match date_parse E timestamp with
  | None => false
  | Some t => (AUTH_TIMEOUT * 3600000 <? Z.abs (now - t))%Z
  end.

(** [resetAuth()]. *)
Definition resetAuth : M unit := deleteAllProperties.

(** [isAuthValid()] at time [now]. *)
Definition isAuthValid (E : env) (now : Z) : M bool :=
  token <-- getProperty "dscc.token" ;;;
  timestamp <-- getProperty "dscc.timestamp" ;;;
  match timestamp with
  | None => ret false
  | Some ts =>
      if expired E now ts then _ <-- resetAuth ;;; ret false
      else ret (match token with Some _ => true | None => false end)
  end.

(** [getToken(username, password, path)]: [null] unless the answer has
    status 200, else the [token] member of the parsed body. *)
Definition getToken (E : env) (username password : jsval) (path : string) : M jsval :=
  let bodyOfRequest := JObj [("email", username); ("password", password)] in
  let parametersOfRequest :=
    {| rmethod := "post"; rcontentType := Some "application/json"; rheaders := [];
       rpayload := stringify bodyOfRequest |} in
  rawResponse <-- fetch E (path ++ "/sessions") parametersOfRequest ;;;
  if negb (Z.eqb (code rawResponse) 200) then ret JNull
  else jsonOfResponse <-- parse_json E (content rawResponse) ;;;
       lift (get_prop jsonOfResponse "token").

(** [storeCredentials(username, password, path, fullPath, timestamp)]. *)
Definition storeCredentials (username password path fullPath timestamp : string) : M unit :=
  _ <-- setProperty "dscc.username" username ;;;
  _ <-- setProperty "dscc.password" password ;;;
  _ <-- setProperty "dscc.path" path ;;;
  _ <-- setProperty "dscc.fullPath" fullPath ;;;
  setProperty "dscc.timestamp" timestamp.

Definition str_or_null (p : option string) : jsval :=
  match p with Some s => JStr s | None => JNull end.

(** [setToken()]: [path.concat(...)] on a [null] path throws. *)
Definition setToken (E : env) : M unit :=
  username <-- getProperty "dscc.username" ;;;
  password <-- getProperty "dscc.password" ;;;
  path <-- getProperty "dscc.path" ;;;
  match path with
  | None => throw TypeErr
  | Some p =>
      token <-- getToken E (str_or_null username) (str_or_null password) p ;;;
      v <-- prop_value token ;;;
      setProperty "dscc.token" v
  end.

(** [validateAndStoreCredentials(username, password, path)] at time [now]
    (each path through the function reads the clock once). *)
Definition validateAndStoreCredentials (E : env) (now : Z) (username password path : string)
    : M bool :=
  let fullPath := path in
  let path := base_URL (parseURL path) in
  token <-- getProperty "dscc.token" ;;;
  timestamp <-- getProperty "dscc.timestamp" ;;;
  match token with
  | Some _ =>
      ts <-- getProperty "dscc.timestamp" ;;;
      match ts with
      | None => _ <-- setProperty "dscc.timestamp" (date_toString E now) ;;; ret true
      | Some _ =>
          (* [Date.parse(null)] is [NaN] *)
          if match timestamp with Some t => expired E now t | None => false end
          then _ <-- resetAuth ;;; ret false else ret true
      end
  | None =>
      token <-- getToken E (JStr username) (JStr password) path ;;;
      match token with
      | JNull => ret false
      | _ =>
          _ <-- storeCredentials username password path fullPath (date_toString E now) ;;;
          v <-- prop_value token ;;;
          _ <-- setProperty "dscc.token" v ;;;
          ret true
      end
  end.

(** [setCredentials(request)]: the [errorCode] it returns. *)
Definition setCredentials (E : env) (now : Z) (username password path : string) : M string :=
  isCredentialsValid <-- validateAndStoreCredentials E now username password path ;;;
  ret (if isCredentialsValid then "NONE" else "INVALID_CREDENTIALS").

(** ** Table metadata requests (lines 359-493) *)

(** [getNumberOfRowsInTable(URL, tableName)]. *)
Definition getNumberOfRowsInTable (E : env) (URL tableName : string) : M jsval :=
  let URLs := [URL; "/"; tableName; "?%24top=1&%24count=true"] in
  tok <-- getProperty "dscc.token" ;;;
  response <-- catch_as (fetch E (join "" URLs) (get_options tok))
                        (UserError "something is wrong with the URL") ;;;
  response <-- (if negb (Z.eqb (code response) 200)
                then _ <-- setToken E ;;;
                     tok' <-- getProperty "dscc.token" ;;;
                     fetch E URL (get_options tok')
                else ret response) ;;;
  responseJson <-- catch_as (parse_json E (content response)) (UserError "bad URL request") ;;;
  lift (get_prop responseJson "@odata.count").

Definition invalid_url_text : string := "You have entered an invalid URL.".

(** [getAvailableTablesFromURL(URL)]: the [[label, value]] options. *)
Definition getAvailableTablesFromURL (E : env) (URL : string) : M (list (jsval * jsval)) :=
  tok <-- getProperty "dscc.token" ;;;
  response <-- catch_as (fetch E URL (get_options tok)) (UserError invalid_url_text) ;;;
  response <-- (if negb (Z.eqb (code response) 200)
                then _ <-- setToken E ;;;
                     tok' <-- getProperty "dscc.token" ;;;
                     fetch E URL (get_options tok')
                else ret response) ;;;
  if negb (Z.eqb (code response) 200) then throw (UserError invalid_url_text)
  else
  responseJson <-- catch_as (parse_json E (content response))
     (UserError "bad URL request, please enter the correct URL to your data") ;;;
  value <-- lift (get_prop responseJson "value") ;;;
  infos <-- iterate value ;;;
  tableNames <-- mmapM (fun table_info => lift (get_prop table_info "name")) infos ;;;
  joined <-- lift (join_values UNIQUE_SEPARATOR tableNames) ;;;
  _ <-- setProperty "tableNames" joined ;;;
  ret (map (fun n => (n, n)) tableNames).

(** [user.getProperty('tableNames').split(UNIQUE_SEPARATOR)] in [getFields]
    (line 579): the list the schema code receives as [tableNamesProp]. *)
Definition getFields_tableNames : M (list string) :=
  p <-- getProperty "tableNames" ;;;
  match p with
  | Some s => ret (split_sub UNIQUE_SEPARATOR s)
  | None => throw TypeErr
  end.

(** ** [getData] (lines 1148-1320) *)

Definition server_mismatch_text : string :=
  "Current credentials do not match the server this report's data is from. You have been logged out.".

(** The check at the start of [getData] (lines 1172-1193): the stored login
    URL and the requested URL must agree up to their last [/]. *)
Definition getData_server_check (URL : string) : M unit :=
  p <-- getProperty "dscc.path" ;;;
  fp <-- getProperty "dscc.fullPath" ;;;
  match p, fp with
  | Some _, Some fullPath =>
      let pathWithoutForm := substr0 fullPath (lastIndexOf slash fullPath) in
      let urlWithoutForm := substr0 URL (lastIndexOf slash URL) in
      if negb (String.eqb pathWithoutForm urlWithoutForm)
      then _ <-- resetAuth ;;; throw (UserError server_mismatch_text)
      else ret tt
  | _, _ => ret tt
  end.

(** The numbers [skip] and [top] of the paging loop: [parseInt] results,
    an integer or [NaN] ([None]). *)
Definition num : Type := option Z.
Definition num_add (n : num) (k : Z) : num := option_map (fun z => (z + k)%Z) n.
Definition num_pos (n : num) : bool := match n with Some z => (0 <? z)%Z | None => false end.
Definition num_text (n : num) : string := match n with Some z => z_to_dec z | None => "NaN" end.
(** Integers are exact in a double up to [2^53]. *)
Definition num_safe (n : num) : bool :=
  match n with Some z => (Z.abs z <=? 2 ^ 53)%Z | None => true end.

(** The options [getData] builds once, before the loop. *)
Definition getData_params (tok : option string) : request :=
  {| rmethod := "GET"; rcontentType := None;
     rheaders := [("contentType", "application/json"); ("Authorization", bearer tok)];
     rpayload := None |}.

(** One pass of the [do ... while] body up to [mergedJSON.push(...)]:
    the rows of one page.  The retry reuses [request_params]. *)
Definition request_page (E : env) (url : string) (request_params : request) (skip top : num)
    : M (list jsval) :=
  if negb (num_safe skip && num_safe top) then throw Unmodelled else
  let formatted_url := url ++ "?%24skip=" ++ num_text skip ++ "&%24top=" ++ num_text top in
  response <-- fetch E formatted_url request_params ;;;
  response <-- (if negb (Z.eqb (code response) 200)
                then _ <-- setToken E ;;; fetch E formatted_url request_params
                else ret response) ;;;
  j <-- parse_json E (content response) ;;;
  parsedJSON <-- lift (get_prop j "value") ;;;
  iterate parsedJSON.

(** The [do ... while (parsedJSON.length != 0 && top > 0)] loop on a page
    function [pg].  [top] drops by 50000 per pass, so the loop makes at most
    [loop_bound top] further passes after the first; the [O] branch is only
    reached with a false loop condition (lemma [loop_bound_step]). *)
Fixpoint data_loop_go (n : nat) (pg : num -> num -> M (list jsval)) (skip top : num)
    (mergedJSON : list jsval) : M (list jsval) :=
  parsedJSON <-- pg skip top ;;;
  let mergedJSON := List.app mergedJSON parsedJSON in
  let skip := num_add skip 50000 in
  let top := num_add top (-50000) in
  if negb (Nat.eqb (List.length parsedJSON) 0) && num_pos top then
    match n with
    | O => ret mergedJSON
    | S n' => data_loop_go n' pg skip top mergedJSON
    end
  else ret mergedJSON.

Definition loop_bound (top : num) : nat :=
  match top with Some t => Z.to_nat ((t - 1) / 50000) | None => O end.

Definition data_loop (pg : num -> num -> M (list jsval)) (skip top : num) : M (list jsval) :=
  data_loop_go (loop_bound top) pg skip top [].

(** The paging loop of [getData] on the table URL [url]. *)
Definition getData_pages (E : env) (url : string) (tok : option string) (skip top : num)
    : M (list jsval) :=
  data_loop (request_page E url (getData_params tok)) skip top.

(** ** Schema request: [testSchema] (lines 814-893) *)

Definition wrong_combination_text : string :=
  "You have entered the wrong combination of project ID, form ID, and table Name. Please re-enter the correct information.".

(** [testSchema(request)]: [configURL] is [request.configParams.URL], and
    [None] stands for [request === undefined].  [url.join('')] turns a
    [null] or [undefined] part into the empty string; [JSON.parse(response)]
    reads the response's content text. *)
Definition testSchema (E : env) (configURL : option string) : M jsval :=
  baseURL <-- getProperty "dscc.path" ;;;
  url <-- (match configURL with
           | None =>
               projectId <-- getProperty "projectId" ;;;
               formId <-- getProperty "xmlFormId" ;;;
               ret [str_or_null baseURL; JStr "/projects/"; str_or_null projectId;
                    JStr "/forms/"; str_or_null formId; JStr "/fields"]
           | Some u =>
               let path_infos := parseURL u in
               ret [str_or_null baseURL; JStr "/projects/";
                    match project_id path_infos with Some p => JStr p | None => JUndef end;
                    JStr "/forms/"; JStr (form_id path_infos); JStr "/fields"]
           end) ;;;
  u <-- lift (join_values "" url) ;;;
  tok <-- getProperty "dscc.token" ;;;
  response <-- fetch E u (get_options tok) ;;;
  response <-- (if negb (Z.eqb (code response) 200)
                then _ <-- setToken E ;;;
                     tok' <-- getProperty "dscc.token" ;;;
                     fetch E u (get_options tok')
                else ret response) ;;;
  if negb (Z.eqb (code response) 200) then throw (UserError wrong_combination_text)
  else parse_json E (content response).

(** ** Configuration: [getConfig] (lines 272-351) *)

(** The items [config.newCheckbox()], [newInfo()], [newTextInput()] and
    [newSelectSingle()] add, with what the code sets on them. *)
Inductive config_item : Type :=
  | Checkbox (cid name helpText : string) (dynamic : bool)
  | Info (cid text : string)
  | TextInput (cid name : string) (helpText : option string) (dynamic : bool)
  | SelectSingle (cid name : string) (dynamic : bool) (options : list (jsval * jsval)).

(** What [config.build()] returns: the stepped-config flag as last set
    ([None] when never set) and the items in creation order. *)
Record config := { stepped : option bool; items : list config_item }.

Definition add_item (c : config) (i : config_item) : config :=
  {| stepped := stepped c; items := List.app (items c) [i] |}.

Definition set_stepped (c : config) (b : bool) : config :=
  {| stepped := Some b; items := items c |}.

(** [request.configParams] when it is defined: [URL], [table] and the
    [reset_auth] checkbox. *)
Record config_params := { cp_URL : string; cp_table : option string; cp_reset_auth : bool }.

Definition logged_out_text : string :=
  "You have successfully logged out. Please refresh your page to return to the login page.".

Definition request_data_text (current_form : string) : string :=
  "Enter the Odata URL for your form (available from Submissions by clicking on Analyze via Odata). It can be the URL for the same form you entered when you first configured the connector: "
  ++ current_form ++ " or the URL for another form on the same server.".

Definition time_text : string :=
  "If you would like, you can limit the number of rows to visualize. If you leave these fields blank, all rows will be included. Note that accessing 50000 rows takes a couple of minutes.".

(** [numberOfRows.toString()]: it throws on [null] and [undefined]; the
    text of arrays, objects and functions is not modelled.  For the other
    values it is also what [' ' + numberOfRows] inserts. *)
Definition toString_method (v : jsval) : M string :=
  match v with
  | JUndef | JNull => throw TypeErr
  | JBool b => ret (bool_text b)
  | JNum r => ret r
  | JStr s => ret s
  | _ => throw Unmodelled
  end.

(** [getConfig(request)]: [configParams] is [None] when
    [request.configParams] is undefined. *)
Definition getConfig (E : env) (configParams : option config_params) : M config :=
  let isFirstRequest := match configParams with None => true | Some _ => false end in
  fp <-- getProperty "dscc.fullPath" ;;;
  let current_form := match fp with Some s => s | None => "" end in
  let config := {| stepped := None; items := [] |} in
  let config := if isFirstRequest then set_stepped config true else config in
  let config := add_item config
      (Checkbox "reset_auth" "Reset Auth?" "Do you want to reset Auth?" true) in
  let config := add_item config (Info "Request Data" (request_data_text current_form)) in
  let config := add_item config
      (TextInput "URL" "Enter an URL to your data"
         (Some "e.g. https://<your server>/v1/projects/<projectID>/forms/<formID>.svc") true) in
  match configParams with
  | None => ret config
  | Some cp =>
      if cp_reset_auth cp then _ <-- resetAuth ;;; throw (UserError logged_out_text)
      else
      tableOptions <-- getAvailableTablesFromURL E (cp_URL cp) ;;;
      let config := set_stepped (add_item config (SelectSingle "table" "Table" true tableOptions)) true in
      match cp_table cp with
      | None => ret config
      | Some tbl =>
          numberOfRows <-- getNumberOfRowsInTable E (cp_URL cp) tbl ;;;
          n <-- toString_method numberOfRows ;;;
          _ <-- setProperty "totalNumRows" n ;;;
          let config := add_item config
              (Info "number of rows" ("there are " ++ n ++ " rows in this table")) in
          let config := add_item config (Info "time" time_text) in
          let config := add_item config
              (TextInput "startingRow" "Enter the starting row that you want to access (starting from 0)" None false) in
          let config := add_item config
              (TextInput "numberOfRowsToAccess" "Enter number of rows you want to access (starting from 0)" None false) in
          ret (set_stepped config false)
      end
  end.

(** ** Server models used in statements *)

(** A server that answers [$skip]/[$top] with at most [cap] rows of [rows]. *)
Definition capped_server (rows : list jsval) (cap : Z) (skip top : num) : M (list jsval) :=
  ret (match skip, top with
       | Some s, Some t => firstn (Z.to_nat (Z.min t cap)) (skipn (Z.to_nat s) rows)
       | _, _ => []
       end).

(** A server that returns every row asked for. *)
Definition full_server (rows : list jsval) (skip top : num) : M (list jsval) :=
  ret (match skip, top with
       | Some s, Some t => firstn (Z.to_nat t) (skipn (Z.to_nat s) rows)
       | _, _ => []
       end).

(** The URL of the [k]-th page request of the loop. *)
Definition page_url (url : string) (s t : Z) (k : nat) : string :=
  url ++ "?%24skip=" ++ z_to_dec (s + 50000 * Z.of_nat k) ++ "&%24top="
      ++ z_to_dec (t - 50000 * Z.of_nat k).

(** A canonical OData form URL. *)
Definition odata_url (sch rest p f : string) : string :=
  sch ++ "//" ++ rest ++ "/projects/" ++ p ++ "/forms/" ++ f ++ ".svc".


(** The login request [getToken] sends for [username] and [password]. *)
Definition session_request (username password : string) : request :=
  {| rmethod := "post"; rcontentType := Some "application/json"; rheaders := [];
     rpayload := stringify (JObj [("email", JStr username); ("password", JStr password)]) |}.

(** The store and request log after a first successful login. *)
Definition login_world (w : world) (E : env) (now : Z) (user pw fullPath tok : string) : world :=
  {| uprops :=
       supdate "dscc.token" tok
         (supdate "dscc.timestamp" (date_toString E now)
            (supdate "dscc.fullPath" fullPath
               (supdate "dscc.path" (base_URL (parseURL fullPath))
                  (supdate "dscc.password" pw
                     (supdate "dscc.username" user (uprops w))))));
     sent := List.app (sent w)
               [(base_URL (parseURL fullPath) ++ "/sessions", session_request user pw)] |}.

(** The first URL [getNumberOfRowsInTable] requests. *)
Definition count_url (URL tableName : string) : string :=
  URL ++ "/" ++ tableName ++ "?%24top=1&%24count=true".

(** A computation that only adds requests after the ones already sent. *)
Definition appends_sent {A} (m : M A) : Prop :=
  forall w, exists l, sent (snd (m w)) = List.app (sent w) l.

(** ** Sample platforms and stores *)

Definition r_ok : http_response := {| code := 200; content := "body" |}.

Definition j_ok : jsval :=
  JObj [("token", JStr "tk"); ("value", JArr [JObj [("name", JStr "Submissions")]]);
        ("@odata.count", JNum "7")].

(** A server that accepts every request; dates print as [t0], read as 0. *)
Definition env_ok : env :=
  {| http := fun _ _ _ => Some r_ok;
     json_parse := fun _ => Some j_ok;
     date_parse := fun s => if String.eqb s "t0" then Some 0%Z else None;
     date_toString := fun _ => "t0" |}.

(** A server that refuses every request. *)
Definition env_denied : env :=
  {| http := fun _ _ _ => Some {| code := 401; content := "" |};
     json_parse := fun _ => None;
     date_parse := fun _ => None;
     date_toString := fun _ => "t0" |}.

(** A server that refuses the first request only. *)
Definition env_retry : env :=
  {| http := fun k _ _ => Some {| code := if Nat.eqb k 0 then 401%Z else 200%Z; content := "body" |};
     json_parse := fun _ => Some j_ok;
     date_parse := fun _ => None;
     date_toString := fun _ => "t0" |}.

Definition sample_url : string := "https://h/v1/projects/1/forms/f.svc".

Definition w_empty : world := {| uprops := []; sent := [] |}.

Definition w_logged : world :=
  {| uprops := [("dscc.username", "u"); ("dscc.password", "pw"); ("dscc.path", "https://h/v1");
                ("dscc.fullPath", sample_url); ("dscc.token", "tk"); ("dscc.timestamp", "t0")];
     sent := [] |}.

Definition cp_table_step : config_params :=
  {| cp_URL := sample_url; cp_table := Some "Submissions"; cp_reset_auth := false |}.

Definition config_of (r : res config) : config :=
  match r with Val c => c | Exc _ => {| stepped := None; items := [] |} end.

(** A server that lists two tables. *)
Definition j_two : jsval :=
  JObj [("value", JArr [JObj [("name", JStr "Submissions")];
                        JObj [("name", JStr "Submissions.repeat1")]])].

Definition env_two : env :=
  {| http := fun _ _ _ => Some r_ok;
     json_parse := fun _ => Some j_two;
     date_parse := fun _ => None;
     date_toString := fun _ => "t0" |}.
(* ================================================================== *)
(** * Proofs *)

Ltac split_ifs :=
  repeat match goal with
         | |- context [if ?b then _ else _] => destruct b
         | H : context [if ?b then _ else _] |- _ => destruct b
         end.

(** ** Monadic plumbing *)





(** ** Column lists built by [getFields] *)

Lemma getGDSType_metric_not_geo t dt :
  getGDSType t = (Metric, dt) -> dt <> LATITUDE_LONGITUDE.
Proof. unfold getGDSType. intro H. split_ifs; inversion H; discriminate. Qed.

Lemma geo_followed_app A B :
  geo_followed A -> geo_followed B -> ends_not_geo A -> geo_followed (List.app A B).
Proof.
  intros HA HB HE k c Hk Hg.
  destruct (Nat.lt_ge_cases k (List.length A)) as [Hlt|Hge].
  - rewrite nth_error_app1 in Hk by lia.
    destruct (Nat.lt_ge_cases (S k) (List.length A)) as [Hlt'|Hge'].
    + rewrite nth_error_app1 by lia. apply HA; auto.
    + exfalso. apply (HE c); auto. replace (List.length A - 1) with k by lia. exact Hk.
  - rewrite nth_error_app2 in Hk by lia.
    rewrite nth_error_app2 by lia.
    replace (S k - List.length A) with (S (k - List.length A)) by lia.
    apply HB; auto.
Qed.

Lemma ends_not_geo_app A B :
  ends_not_geo A -> ends_not_geo B -> ends_not_geo (List.app A B).
Proof.
  intros HA HB c Hc. rewrite length_app in Hc.
  destruct B as [|b B'].
  - rewrite app_nil_r in Hc. apply HA. rewrite Nat.add_0_r in Hc. exact Hc.
  - rewrite nth_error_app2 in Hc by (simpl; lia).
    apply HB. simpl in Hc |- *. replace (List.length B' - 0) with (List.length B') by lia.
    replace (List.length A + S (List.length B') - 1 - List.length A)
      with (List.length B') in Hc by lia. exact Hc.
Qed.

(** Shape of a run of consecutive columns starting at counter [n]. *)
Definition run_ok (n : nat) (L : list field) (n' : nat) : Prop :=
  map fid L = seq n (List.length L) /\ n' = n + List.length L
  /\ geo_followed L /\ ends_not_geo L.

Lemma run_ok_app n A n1 B n2 :
  run_ok n A n1 -> run_ok n1 B n2 -> run_ok n (List.app A B) n2.
Proof.
  intros [HA1 [HA2 [HA3 HA4]]] [HB1 [HB2 [HB3 HB4]]]. subst n1 n2.
  repeat split.
  - rewrite map_app, HA1, HB1, length_app, seq_app. reflexivity.
  - rewrite length_app. lia.
  - apply geo_followed_app; auto.
  - apply ends_not_geo_app; auto.
Qed.

Lemma run_ok_nil n : run_ok n [] n.
Proof.
  repeat split; simpl; auto; try lia.
  - intros k c H. destruct k; discriminate.
  - intros c H. discriminate.
Qed.

Lemma run_ok_single n c :
  fid c = n -> ftype c <> LATITUDE_LONGITUDE -> run_ok n [c] (n + 1).
Proof.
  intros Hi Ht. repeat split; simpl; try rewrite Hi; auto.
  - intros k c' H Hg. destruct k as [|[|k]]; simpl in H; inversion H; subst; congruence.
  - intros c' H. simpl in H. inversion H; subst; auto.
Qed.

Lemma leaf_fields_run d n : run_ok n (fst (leaf_fields d n)) (snd (leaf_fields d n)).
Proof.
  unfold leaf_fields.
  destruct (getGDSType (type d)) as [ct dt] eqn:Ht.
  destruct ct.
  - destruct (is_latlon dt) eqn:Hl; simpl.
    + destruct dt; try discriminate.
      repeat split; simpl; try lia.
      * f_equal. f_equal. lia.
      * intros k c H Hg. destruct k as [|[|k]]; simpl in H; inversion H; subst; simpl.
        -- unfold accuracy_of. simpl. f_equal. f_equal. lia.
        -- discriminate.
        -- destruct k; discriminate.
      * intros c H. simpl in H. inversion H; subst. simpl. discriminate.
    + apply run_ok_single; simpl; auto. intro E. subst. discriminate.
  - simpl. apply run_ok_single; simpl; auto. eapply getGDSType_metric_not_geo; eauto.
Qed.

Lemma fields_loop_run m req tn json n :
  run_ok n (fst (fields_loop m req tn json n)) (snd (fields_loop m req tn json n)).
Proof.
  revert n; induction json as [|d r IH]; intro n; simpl.
  - apply run_ok_nil.
  - destruct (skipped_kind d); [apply IH|].
    destruct (other_table req tn (schemaTableName m (path d))); [apply IH|].
    pose proof (leaf_fields_run d n) as Hl.
    destruct (leaf_fields d n) as [fs n'] eqn:E. simpl in Hl.
    specialize (IH n').
    destruct (fields_loop m req tn r n') as [rest n''] eqn:E2. simpl in IH |- *.
    eapply run_ok_app; eauto.
Qed.

Lemma fields_loop_run_eq m req tn json n L n' :
  fields_loop m req tn json n = (L, n') -> run_ok n L n'.
Proof.
  intro E. pose proof (fields_loop_run m req tn json n) as H. rewrite E in H. exact H.
Qed.

Lemma submission_fields_run n :
  run_ok n (fst (addSubmissionFields n)) (snd (addSubmissionFields n)).
Proof.
  simpl. repeat split; simpl.
  - now rewrite !Nat.add_succ_r, !Nat.add_0_r.
  - intros k c H Hg. do 4 (destruct k as [|k]; simpl in H; [inversion H; subst; discriminate|]).
    destruct k; discriminate.
  - intros c H. simpl in H. inversion H; subst. simpl. discriminate.
Qed.

(** ** Unfolding [getFields] *)

Definition tableNames_of (tn : list string) : list string :=
  map (substr_from 12) (filter (fun e => negb (String.eqb e "Submissions")) tn).

Lemma getFields_meta st json req tn :
  meta (fst (getFields st json req tn)) = collect_meta (map_clear (meta st)) json.
Proof.
  unfold getFields.
  destruct (if String.eqb req "Submissions" then _ else _) as [syn n1].
  destruct (fields_loop _ _ _ _ _) as [fs n2]. reflexivity.
Qed.

Lemma getFields_repeat st json req tn :
  String.eqb req "Submissions" = false ->
  let m := collect_meta (map_clear (meta st)) json in
  snd (getFields st json req tn) =
    List.app (fst (addRepeatFields m (id st) req))
      (fst (fields_loop m req (tableNames_of tn) json (snd (addRepeatFields m (id st) req)))).
Proof.
  intros Hreq m. unfold getFields. rewrite Hreq. fold m.
  destruct (addRepeatFields m (id st) req) as [syn n1].
  unfold tableNames_of. destruct (fields_loop _ _ _ _ _) as [fs n2]. reflexivity.
Qed.

(** ** C3: geo columns of the root-table schema *)

(** C3: in every schema [getFields] builds for the root table
    ["Submissions"], the column ids run consecutively from the counter's
    value (never reset), the counter ends one past the last column, and every
    geo-coordinate column [g] is immediately followed by the numeric metric
    column [g-accuracy], whose id is the next counter value. *)
Theorem root_schema_geo_accuracy (st : gstate) (json : list descriptor) (tn : list string) :
  let '(st', fs) := getFields st json "Submissions" tn in
  map fid fs = seq (id st) (List.length fs) /\ id st' = id st + List.length fs /\
  (forall k c, nth_error fs k = Some c -> ftype c = LATITUDE_LONGITUDE ->
     nth_error fs (S k) =
       Some {| fid := S (fid c); fname := fname c ++ "-accuracy";
               fconcept := Metric; ftype := NUMBER |}).
Proof.
  unfold getFields. cbn [String.eqb Ascii.eqb Bool.eqb andb].
  pose proof (submission_fields_run (id st)) as H1.
  destruct (addSubmissionFields (id st)) as [syn n1] eqn:E1.
  destruct (fields_loop _ _ _ json n1) as [fs n2] eqn:E2.
  pose proof (fields_loop_run_eq _ _ _ _ _ _ _ E2) as H2.
  cbn [fst snd] in H1, H2 |- *.
  destruct (run_ok_app _ _ _ _ _ H1 H2) as [Hid [Hn [Hgeo _]]].
  split; [exact Hid|]. split; [exact Hn|].
  intros k c Hk Hg. exact (Hgeo k c Hk Hg).
Qed.

(** ** Records without their row-identity field *)





(** ** C4: one row per record, one value per column *)


(** ** C1: owning table of a leaf *)

Lemma sassoc_supdate k k' v l :
  sassoc k (supdate k' v l) = if String.eqb k k' then Some v else sassoc k l.
Proof.
  induction l as [|[a b] r IH]; simpl.
  - destruct (String.eqb k k'); reflexivity.
  - destruct (String.eqb_spec k' a) as [->|Hne]; simpl.
    + destruct (String.eqb k a); reflexivity.
    + destruct (String.eqb_spec k a) as [->|Hka].
      * destruct (String.eqb_spec a k') as [->|]; [congruence|reflexivity].
      * exact IH.
Qed.

Lemma collect_meta_props m json x :
  x <> "size" -> x <> "__proto__" ->
  sassoc x (props (collect_meta m json)) =
    match last_struct_type json x with Some t => Some t | None => sassoc x (props m) end.
Proof.
  intros Hs Hp. revert m; induction json as [|d r IH]; intro m; simpl; auto.
  rewrite IH. destruct (last_struct_type r x) as [t|]; auto.
  unfold structural.
  destruct (String.eqb (type d) "structure" || String.eqb (type d) "repeat"); simpl; auto.
  unfold map_assign.
  destruct (String.eqb_spec (name d) "size") as [Ens|];
    [| destruct (String.eqb_spec (name d) "__proto__") as [Enp|]]; simpl.
  - destruct (String.eqb_spec (name d) x); congruence.
  - destruct (String.eqb_spec (name d) x); congruence.
  - rewrite sassoc_supdate, String.eqb_sym. destruct (String.eqb (name d) x); reflexivity.
Qed.

Lemma last_struct_type_kind json x t :
  last_struct_type json x = Some t -> t = "structure" \/ t = "repeat".
Proof.
  induction json as [|d r IH]; simpl; [discriminate|].
  destruct (last_struct_type r x); [auto|].
  unfold structural.
  destruct (String.eqb_spec (type d) "structure");
    [|destruct (String.eqb_spec (type d) "repeat")]; simpl;
    destruct (String.eqb (name d) x); intro H; inversion H; auto.
Qed.

Lemma spec_index_go json idx x :
  sassoc x (fold_left spec_record json idx) =
    match last_struct_type json x with
    | Some t => Some (spec_kind t)
    | None => sassoc x idx
    end.
Proof.
  revert idx; induction json as [|d r IH]; intro idx; simpl; auto.
  rewrite IH. destruct (last_struct_type r x); auto.
  unfold spec_record, structural, spec_kind.
  destruct (String.eqb_spec (type d) "structure") as [E|E]; simpl.
  - rewrite sassoc_supdate, String.eqb_sym, E. destruct (String.eqb (name d) x); reflexivity.
  - destruct (String.eqb_spec (type d) "repeat") as [E'|E']; simpl; auto.
    rewrite sassoc_supdate, String.eqb_sym, E'. destruct (String.eqb (name d) x); reflexivity.
Qed.

Lemma drop_while_ext_in {A} (p q : A -> bool) l :
  (forall x, In x l -> p x = q x) -> drop_while p l = drop_while q l.
Proof.
  induction l as [|a r IH]; intro H; simpl; auto.
  rewrite (H a (or_introl eq_refl)). destruct (q a); auto.
  apply IH. intros; apply H; right; auto.
Qed.

Lemma pop_while_ext_in {A} (p q : A -> bool) l :
  (forall x, In x l -> p x = q x) -> pop_while p l = pop_while q l.
Proof.
  intro H. unfold pop_while. f_equal. apply drop_while_ext_in.
  intros x Hx. apply H, in_rev, Hx.
Qed.

(** For a map filled on a fresh [Map] object, the loop of [getFields]
    computes the spec's table identity whenever no segment of the path is a
    member name of [Map.prototype] or [Object.prototype]. *)
Lemma table_identity_agrees json p :
  (forall s, In s (split_char slash p) ->
             mem_str s (map_proto_names ++ object_proto_names) = false) ->
  schemaTableName (collect_meta empty_map json) p = spec_table_identity (spec_index json) p.
Proof.
  intro H. unfold schemaTableName, spec_table_identity, splice_first.
  rewrite (pop_while_ext_in (leaf_or_group (collect_meta empty_map json))
             (fun s => match sassoc s (spec_index json) with
                       | None => true
                       | Some k => String.eqb k "group"
                       end)).
  { destruct (pop_while _ _); reflexivity. }
  intros s Hs. specialize (H s Hs).
  assert (Hsz : s <> "size") by (intro E; subst; discriminate).
  assert (Hpr : s <> "__proto__") by (intro E; subst; discriminate).
  unfold leaf_or_group, map_get. rewrite collect_meta_props by assumption.
  unfold spec_index. rewrite spec_index_go.
  destruct (last_struct_type json s) as [t|] eqn:Et.
  - destruct (last_struct_type_kind _ _ _ Et) as [->| ->]; reflexivity.
  - cbn [sassoc props empty_map]. apply String.eqb_neq in Hsz. rewrite Hsz, H. reflexivity.
Qed.

(** C1 (code_bug): a leaf named [size] inside the repeat [repeat1].  Its
    name is absent from the metadata map, but [metaDataMap["size"]] is the
    [Map] size getter (the number [0]), which is neither [null] nor
    ["structure"]; the loop stops there, the leaf's table becomes
    [repeat1.size] instead of the spec's [repeat1], the leaf lands in the
    root-table schema and is missing from the [repeat1] schema.  The spec's
    scenario [/repeat1/group1/q3] does give [repeat1]. *)
Theorem size_leaf_owning_table :
  let m := meta (fst (getFields gs0 ds_size "Submissions" tn0)) in
  schemaTableName m "/repeat1/size" = "repeat1.size" /\
  spec_table_identity (spec_index ds_size) "/repeat1/size" = "repeat1" /\
  In {| fid := 4; fname := "repeat1/size"; fconcept := Metric; ftype := NUMBER |}
     (snd (getFields gs0 ds_size "Submissions" tn0)) /\
  snd (getFields gs0 ds_size "Submissions.repeat1" tn0) =
    fst (addRepeatFields m 0 "Submissions.repeat1") /\
  schemaTableName (meta (fst (getFields gs0 ds_sample "Submissions" tn0)))
    "/repeat1/group1/q3" = "repeat1".
Proof.
  simpl. repeat split; try reflexivity.
  vm_compute. do 4 right. left. reflexivity.
Qed.

(** ** C2: missing data *)



Lemma walk_absent f k rest :
  assoc k f = None -> mem_str k object_proto_names = false ->
  walk (JObj f) (k :: rest) = Ok None.
Proof. intros H1 H2. cbn [walk bind has_prop]. rewrite H1, H2. reflexivity. Qed.




(** ** C4 counterexample and witness *)



(** ** C5: the linkage column of a repeat inside a group named [size] *)

(** On a fresh map, where no segment of the chain is named like a member of
    [Map.prototype] or [Object.prototype], the code's suffix is the spec's. *)
Lemma linkage_suffix_agrees json table :
  (forall s, In s (tl (removelast (split_char dot table))) ->
             mem_str s (map_proto_names ++ object_proto_names) = false) ->
  repeatTableKey (collect_meta empty_map json) table = spec_linkage_suffix (spec_index json) table.
Proof.
  intro H. unfold repeatTableKey, spec_linkage_suffix, splice_first, splice_last.
  replace (match removelast (split_char dot table) with [] => [] | _ :: r => r end)
    with (tl (removelast (split_char dot table)))
    by (destruct (removelast (split_char dot table)); reflexivity).
  f_equal. apply pop_while_ext_in. intros s Hs. specialize (H s Hs).
  assert (Hsz : s <> "size") by (intro E; subst; discriminate).
  assert (Hpr : s <> "__proto__") by (intro E; subst; discriminate).
  unfold map_get. rewrite collect_meta_props by assumption.
  unfold spec_index. rewrite spec_index_go.
  destruct (last_struct_type json s) as [t|] eqn:Et.
  - destruct (last_struct_type_kind _ _ _ Et) as [-> | ->]; reflexivity.
  - cbn [sassoc props empty_map]. apply String.eqb_neq in Hsz. rewrite Hsz, H. reflexivity.
Qed.

(** C5 (code_bug): for the repeat [inner] inside the group [size] inside
    the repeat [outer], the spec's suffix is [outer] (the trailing group
    [size] is dropped).  [metaDataMap["size"]] is the [Map] size getter,
    not ["structure"], so the code keeps [size]: the first column is
    [outer/size/inner/__Submissions-outer-size-id], and a record carrying
    the linkage key the spec names, [__Submissions-outer-id], makes the
    projection throw. *)
Theorem size_group_linkage_column :
  let g := getFields gs0 ds_nested "Submissions.outer.size.inner" tn_nested in
  spec_linkage_suffix (spec_index ds_nested) "Submissions.outer.size.inner" = "outer" /\
  map fname (firstn 2 (snd g)) =
    ["outer/size/inner/__Submissions-outer-size-id"; "outer/size/inner/__id"] /\
  responseToRows {| rmeta := meta (fst g); table := "Submissions.outer.size.inner"; user := u0 |}
    (snd g) [JObj [("__id", JStr "uuid:2"); ("__Submissions-outer-id", JStr "uuid:1");
                   ("q", JStr "a")]]
  = TypeError.
Proof. vm_compute. split; [reflexivity | split; reflexivity]. Qed.

(** ** C6: dateTime conversion *)

(** C6 (counterexample): the [dateTime] example does not convert to
    ["20210317T12"]: the regular expression [/[-T]/g] removes the [T] too. *)
Lemma datetime_example_not_T :
  convertData u0 (JStr "2021-03-17T12:34:56") YEAR_MONTH_DAY_HOUR ""
  <> Ok (JStr "20210317T12").
Proof. vm_compute. discriminate. Qed.

(** C6 (amended): a [dateTime] string loses every [-] and [T] and is cut at
    its first [:]; ["2021-03-17T12:34:56"] converts to ["2021031712"]. *)
Theorem datetime_conversion (u : userprops) (i : string) :
  (forall s, convertData u (JStr s) YEAR_MONTH_DAY_HOUR i =
             Ok (JStr (hd "" (split_char colon (remove_chars is_dash_or_T s))))) /\
  convertData u (JStr "2021-03-17T12:34:56") YEAR_MONTH_DAY_HOUR i = Ok (JStr "2021031712").
Proof. split; reflexivity. Qed.

(** ** C7: geo-coordinate conversion *)

(** C7: a geo value whose [coordinates] array has at least two entries
    converts to its second entry, [", "], its first entry (further entries
    are ignored); [{coordinates: [-122.33, 47.65, 0.0]}] gives
    ["47.65, -122.33"]. *)
Theorem geo_conversion (u : userprops) (i : string) (f : list (string * jsval))
    (a b : jsval) (rest : list jsval) (sa sb : string) :
  assoc "coordinates" f = Some (JArr (a :: b :: rest)) ->
  join_text a = Ok sa -> join_text b = Ok sb ->
  convertData u (JObj f) LATITUDE_LONGITUDE i = Ok (JStr (sb ++ ", " ++ sa)) /\
  convertData u (JObj [("coordinates", JArr [JNum "-122.33"; JNum "47.65"; JNum "0.0"])])
    LATITUDE_LONGITUDE i = Ok (JStr "47.65, -122.33").
Proof.
  intros Hc Ha Hb. split; [|reflexivity].
  simpl. rewrite Hc. simpl. rewrite Hb. simpl. rewrite Ha. reflexivity.
Qed.

Lemma geo_conversion_witness :
  convertData u0 (JObj [("type", JStr "Point");
                        ("coordinates", JArr [JNum "2.5"; JNum "-1"])])
    LATITUDE_LONGITUDE "" = Ok (JStr ("-1" ++ ", " ++ "2.5")).
Proof.
  exact (proj1 (geo_conversion u0 "" [("type", JStr "Point");
                                     ("coordinates", JArr [JNum "2.5"; JNum "-1"])]
                  (JNum "2.5") (JNum "-1") [] "2.5" "-1" eq_refl eq_refl eq_refl)).
Defined.

(** ** C8: the metadata map after the collection phase *)

(** A structural descriptor named [instanceID] is recorded in the map: the collection loop tests only the type. *)
Lemma instanceID_structure_recorded :
  sassoc "instanceID"
    (props (meta (fst (getFields gs0
       [ {| path := "/instanceID"; name := "instanceID"; type := "structure" |} ]
       "Submissions" ["Submissions"])))) = Some "structure".
Proof. reflexivity. Qed.

(** After the collection phase of [getFields] on [json], the entry for every
    name [x] other than [size] and [__proto__] is the type of the last
    structure or repeat descriptor of [json] named [x] (whatever the name,
    [instanceID] included); for a name no such descriptor carries, the
    phase leaves the entry of the map it started from, which [clear()] did
    not remove. *)
Lemma collected_metadata (st : gstate) (json : list descriptor) (req : string)
    (tn : list string) (x : string) :
  x <> "size" -> x <> "__proto__" ->
  sassoc x (props (meta (fst (getFields st json req tn)))) =
    match last_struct_type json x with
    | Some t => Some t
    | None => sassoc x (props (meta st))
    end.
Proof. intros Hs Hp. rewrite getFields_meta, collect_meta_props by assumption. reflexivity. Qed.

(** C8 (code_bug): [metaDataMap.clear()] empties only the [Map]'s internal
    entries, not the properties [metaDataMap[name] = type] created, so the
    next schema call still sees the entries of the previous one.  After a
    form with a repeat [q1], the schema of a form whose repeat [rep] holds
    a question [q1] keeps the entry [q1 -> repeat], puts the question in
    the table [rep.q1] and leaves it out of the [rep] schema, which a run
    on a fresh map includes it in. *)
Theorem stale_metadata_second_call :
  let st1 := fst (getFields gs0 ds_form1 "Submissions" ["Submissions"; "Submissions.q1"]) in
  let g2 := getFields st1 ds_form2 "Submissions.rep" ["Submissions"; "Submissions.rep"] in
  last_struct_type ds_form2 "q1" = None /\
  sassoc "q1" (props (meta (fst g2))) = Some "repeat" /\
  schemaTableName (meta (fst g2)) "/rep/q1" = "rep.q1" /\
  ~ In "rep/q1" (map fname (snd g2)) /\
  In "rep/q1" (map fname (snd (getFields gs0 ds_form2 "Submissions.rep"
                                  ["Submissions"; "Submissions.rep"]))).
Proof.
  vm_compute. split; [reflexivity|]. split; [reflexivity|]. split; [reflexivity|].
  split.
  - intros [H|[H|[]]]; discriminate.
  - right. right. left. reflexivity.
Qed.

(** ** C9: a table no leaf belongs to *)

Lemma fields_loop_empty m req tn json n :
  (forall d, In d json -> skipped_kind d = false ->
             other_table req tn (schemaTableName m (path d)) = true) ->
  fst (fields_loop m req tn json n) = [].
Proof.
  revert n; induction json as [|d r IH]; intros n H; simpl; auto.
  destruct (skipped_kind d) eqn:Ek.
  - apply IH. intros; apply H; auto. right; auto.
  - rewrite (H d (or_introl eq_refl) Ek). apply IH. intros; apply H; auto. right; auto.
Qed.

(** C9 (counterexample): a non-root table that no leaf belongs to still
    gets a non-empty schema. *)
Lemma unresolvable_table_not_empty :
  snd (getFields gs0 ds_sample "Submissions.gone" tn0) <> [].
Proof. vm_compute. discriminate. Qed.

(** C9 (amended): when the requested table is not ["Submissions"] and no
    leaf descriptor's owning table equals it, the schema is exactly the two
    synthetic columns of [addRepeatFields] (linkage id, row id), with no
    leaf column. *)
Theorem unresolvable_table_schema (st : gstate) (json : list descriptor) (req : string)
    (tn : list string) :
  req <> "Submissions" ->
  (forall d, In d json -> skipped_kind d = false ->
     schemaTableName (collect_meta (map_clear (meta st)) json) (path d) <> substr_from 12 req) ->
  snd (getFields st json req tn) =
    fst (addRepeatFields (collect_meta (map_clear (meta st)) json) (id st) req) /\
  List.length (snd (getFields st json req tn)) = 2.
Proof.
  intros Hreq Hnone. apply String.eqb_neq in Hreq.
  rewrite (getFields_repeat _ _ _ _ Hreq).
  rewrite fields_loop_empty.
  - rewrite app_nil_r. split; reflexivity.
  - intros d Hd Hk. unfold other_table. rewrite Hreq.
    apply negb_true_iff, String.eqb_neq. apply Hnone; auto.
Qed.

Lemma unresolvable_table_schema_witness :
  List.length (snd (getFields gs0 ds_sample "Submissions.gone" tn0)) = 2.
Proof.
  apply (proj2 (unresolvable_table_schema gs0 ds_sample "Submissions.gone" tn0
                  ltac:(discriminate) ltac:(intros d Hd Hk; vm_compute in Hd;
                        repeat destruct Hd as [<-|Hd]; try contradiction;
                        vm_compute; try discriminate))).
Defined.

(** ** C10: dashed field names *)

(** Dashes in a top-level question name: the schema names the column with
    [_] and projection of a record that holds the value under the dashed
    key only gives [null], as long as the substituted name is not a member
    every object inherits. *)
Lemma dashed_top_leaf_null (m : jsmap) (n s : string) (v : jsval)
    (kvs : list (string * jsval)) (t : gdsType) :
  let n' := replace_char dash underscore n in
  split_char slash n' = [n'] -> includes "-accuracy" n' = false ->
  assoc "__id" kvs = Some (JStr s) -> assoc n kvs = Some v -> assoc n' kvs = None ->
  mem_str n' object_proto_names = false ->
  responseToRows (root_state m) [ {| fid := 0; fname := n'; fconcept := Dimension; ftype := t |} ]
    [JObj kvs] = Ok [[JNull]].
Proof.
  intros n' Hsp Hacc Hid _ Habs Hp.
  unfold responseToRows, project_record, instance_id, id_token.
  change (isSubmissions (root_state m)) with true. cbn [mapM bind get_prop].
  rewrite Hid. cbn [bind mapM].
  unfold project_field. change (isSubmissions (root_state m)) with true. cbn [fname bind].
  rewrite Hsp. unfold handleGeoAccuracyField. cbn [rev List.app]. rewrite Hacc. cbn [bind].
  rewrite (walk_absent kvs n' [] Habs Hp). reflexivity.
Qed.

(** C10 (code_bug): the question [_-proto__] becomes the column
    [__proto__]; for a record holding the value under [_-proto__] only, the
    projection does not give [null] but [Object.prototype]: [fieldName in
    fieldData] finds the inherited [__proto__] member. *)
Theorem proto_dashed_leaf_projection :
  let g := getFields gs0 ds_proto "Submissions" ["Submissions"] in
  In {| fid := 4; fname := "__proto__"; fconcept := Dimension; ftype := TEXT |} (snd g) /\
  responseToRows (root_state (meta (fst g))) (snd g)
    [JObj [("__id", JStr "uuid:1"); ("_-proto__", JStr "v")]]
  = Ok [[JNull; JNull; JStr "uuid:1"; JNull; JBuiltin "__proto__"]].
Proof.
  simpl. split; [|reflexivity]. do 4 right. left. reflexivity.
Qed.


(* ================================================================== *)
(** * Proofs about the entry points *)

(** ** Strings *)

Lemma str_app_nil_r (s : string) : s ++ "" = s.
Proof. induction s; simpl; congruence. Qed.

Lemma str_app_assoc (a b c : string) : (a ++ b) ++ c = a ++ (b ++ c).
Proof. induction a; simpl; congruence. Qed.

Lemma str_length_app (a b : string) : String.length (a ++ b) = String.length a + String.length b.
Proof. induction a; simpl; congruence. Qed.

Lemma split_char_nil c s : split_char c s <> [].
Proof.
  destruct s as [|d r]; simpl; [discriminate|].
  destruct (Ascii.eqb c d); [discriminate|]. destruct (split_char c r); discriminate.
Qed.

Lemma split_char_app c x y :
  split_char c (x ++ String c y) = List.app (split_char c x) (split_char c y).
Proof.
  induction x as [|d x IH]; simpl.
  - rewrite Ascii.eqb_refl. reflexivity.
  - rewrite IH. destruct (Ascii.eqb c d); [reflexivity|].
    destruct (split_char c x) eqn:E; [now apply split_char_nil in E|]. reflexivity.
Qed.

Lemma split_char_none c x : has_char c x = false -> split_char c x = [x].
Proof.
  induction x as [|d x IH]; simpl; intro H; [reflexivity|].
  apply orb_false_iff in H as [H1 H2]. rewrite H1, (IH H2). reflexivity.
Qed.

Lemma split_char_step c x y :
  has_char c x = false -> split_char c (x ++ String c y) = x :: split_char c y.
Proof. intro H. rewrite split_char_app, split_char_none by exact H. reflexivity. Qed.

Lemma concat_cons_char sep d h t :
  String.concat sep (String d h :: t) = String d (String.concat sep (h :: t)).
Proof. destruct t; reflexivity. Qed.

Lemma join_split c s : join (String c "") (split_char c s) = s.
Proof.
  unfold join. induction s as [|d r IH]; simpl; [reflexivity|].
  destruct (Ascii.eqb c d) eqn:E.
  - apply Ascii.eqb_eq in E. subst d.
    destruct (split_char c r) eqn:S; [now apply split_char_nil in S|].
    simpl. rewrite <- IH. reflexivity.
  - destruct (split_char c r) eqn:S; [now apply split_char_nil in S|].
    rewrite concat_cons_char, IH. reflexivity.
Qed.

Lemma substring0_app (a b : string) : substring 0 (String.length a) (a ++ b) = a.
Proof. induction a; simpl; [destruct b; reflexivity | congruence]. Qed.

Lemma substring0_nil n : substring 0 n "" = "".
Proof. destruct n; reflexivity. Qed.



Lemma prefix_app_self a b : String.prefix a (a ++ b) = true.
Proof.
  induction a as [|c a IH]; simpl; [destruct b; reflexivity|].
  destruct (ascii_dec c c); [exact IH | congruence].
Qed.

Lemma prefix_short s x y :
  String.prefix s (x ++ y) = true -> String.length s <= String.length x -> String.prefix s x = true.
Proof.
  revert x; induction s as [|a s IH]; intros x H Hl; [destruct x; reflexivity|].
  destruct x as [|b x]; simpl in Hl; [lia|]. simpl in H |- *.
  destruct (ascii_dec a b); [apply IH; [exact H | lia] | discriminate].
Qed.

Lemma prefix_long s x y :
  String.prefix s (x ++ y) = true -> String.length x <= String.length s ->
  exists w, s = x ++ w /\ String.prefix w y = true.
Proof.
  revert s; induction x as [|b x IH]; intros s H Hl; [exists s; split; [reflexivity|exact H]|].
  destruct s as [|a s]; simpl in Hl; [lia|]. simpl in H.
  destruct (ascii_dec a b) as [->|]; [|discriminate].
  destruct (IH s H ltac:(lia)) as [w [-> Hw]]. exists w. split; [reflexivity|exact Hw].
Qed.

Lemma prefix_includes s x : String.prefix s x = true -> includes s x = true.
Proof. destruct x; simpl; intro H; rewrite H; reflexivity. Qed.

Lemma includes_suffix s x1 x2 : includes s (x1 ++ x2) = false -> includes s x2 = false.
Proof.
  induction x1 as [|c x1 IH]; simpl; [tauto|].
  intro H. apply orb_false_iff in H as [_ H]. exact (IH H).
Qed.

Lemma length_substring n m s : String.length (substring n m s) <= m.
Proof.
  revert n m; induction s as [|c s IH]; intros [|n] [|m]; simpl; try lia.
  - specialize (IH 0 m). lia.
  - apply (IH n 0).
  - apply (IH n (S m)).
Qed.

Lemma substring_app_skip a b m : substring (String.length a) m (a ++ b) = substring 0 m b.
Proof. induction a; simpl; [reflexivity|]. destruct m; exact IHa. Qed.

Lemma substr_from_app a b : substr_from (String.length a) (a ++ b) = b.
Proof.
  unfold substr_from. rewrite substring_app_skip, str_length_app.
  replace (String.length a + String.length b - String.length a) with (String.length b) by lia.
  rewrite <- (str_app_nil_r b) at 2. rewrite substring0_app. reflexivity.
Qed.

Definition borderless (sep : string) : Prop :=
  forall a b, sep = a ++ b -> a <> "" -> b <> "" -> String.prefix b sep = false.

Lemma sep_borderless : borderless UNIQUE_SEPARATOR.
Proof.
  intros a b H Ha Hb. destruct a as [|c a]; [congruence|]. unfold UNIQUE_SEPARATOR in H.
  injection H as _ H.
  repeat (destruct a as [|? a]; [simpl in H; subst b; reflexivity|]; injection H as _ H).
  destruct a; simpl in H; [subst b; congruence | discriminate].
Qed.

Lemma split_go_none fuel sep cur x :
  includes sep x = false -> split_go fuel sep cur x = [cur ++ x].
Proof.
  revert fuel cur; induction x as [|c x IH]; intros fuel cur H.
  - destruct fuel; simpl; [reflexivity|]. rewrite str_app_nil_r. reflexivity.
  - destruct fuel as [|f]; [reflexivity|]. simpl in H |- *.
    apply orb_false_iff in H as [H1 H2]. rewrite H1, (IH f _ H2), str_app_assoc. reflexivity.
Qed.

Lemma split_go_cut sep y x : forall fuel cur,
  sep <> "" ->
  (forall x1 x2, x = x1 ++ x2 -> x2 <> "" -> String.prefix sep (x2 ++ sep ++ y) = false) ->
  String.length x + 1 <= fuel ->
  split_go fuel sep cur (x ++ sep ++ y) =
  (cur ++ x) :: split_go (fuel - String.length x - 1) sep "" y.
Proof.
  induction x as [|c x IH]; intros fuel cur Hsep Hno Hf.
  - destruct fuel as [|f]; simpl in Hf; [lia|].
    destruct sep as [|c0 s0]; [congruence|].
    assert (P : String.prefix (String c0 s0) (String c0 (s0 ++ y)) = true)
      by exact (prefix_app_self (String c0 s0) y).
    cbn [String.append split_go]. rewrite P.
    change (String c0 (s0 ++ y)) with (String c0 s0 ++ y).
    rewrite substr_from_app, str_app_nil_r. simpl. rewrite Nat.sub_0_r. reflexivity.
  - destruct fuel as [|f]; simpl in Hf; [lia|].
    cbn [String.append split_go].
    pose proof (Hno "" (String c x) eq_refl ltac:(discriminate)) as P.
    cbn [String.append] in P. rewrite P.
    rewrite IH; [| exact Hsep | | lia].
    + rewrite str_app_assoc. simpl. reflexivity.
    + intros x1 x2 Hx Hx2. apply (Hno (String c x1) x2); [simpl; congruence | exact Hx2].
Qed.

Lemma split_go_fuel sep : sep <> "" -> forall f1 f2 cur s,
  String.length s <= f1 -> String.length s <= f2 ->
  split_go f1 sep cur s = split_go f2 sep cur s.
Proof.
  intros Hsep f1; induction f1 as [|f IH]; intros f2 cur s H1 H2.
  - destruct s; simpl in H1; [|lia]. destruct f2; simpl; [reflexivity|].
    rewrite str_app_nil_r. reflexivity.
  - destruct s as [|c r].
    + destruct f2; simpl; [rewrite str_app_nil_r | ]; reflexivity.
    + destruct f2 as [|g]; simpl in H2; [lia|]. simpl in H1.
      cbn [split_go]. destruct (String.prefix sep (String c r)).
      * f_equal. apply IH.
        -- pose proof (length_substring (String.length sep)
             (String.length (String c r) - String.length sep) (String c r)).
           destruct sep; [congruence|]. unfold substr_from. simpl in *. lia.
        -- pose proof (length_substring (String.length sep)
             (String.length (String c r) - String.length sep) (String c r)).
           destruct sep; [congruence|]. unfold substr_from. simpl in *. lia.
      * apply IH; lia.
Qed.

Lemma no_early_match sep x y :
  borderless sep -> includes sep x = false ->
  forall x1 x2, x = x1 ++ x2 -> x2 <> "" -> String.prefix sep (x2 ++ sep ++ y) = false.
Proof.
  intros Hb Hx x1 x2 -> Hx2.
  apply includes_suffix in Hx.
  destruct (String.prefix sep (x2 ++ sep ++ y)) eqn:E; [|reflexivity].
  exfalso.
  destruct (Nat.le_gt_cases (String.length sep) (String.length x2)) as [Hl|Hl].
  - apply prefix_short in E; [|exact Hl]. apply prefix_includes in E. congruence.
  - apply prefix_long in E as [w [Hw Hpw]]; [|lia].
    destruct (string_dec w "") as [->|Hwne].
    + rewrite str_app_nil_r in Hw. subst sep.
      rewrite (prefix_includes x2 x2) in Hx; [discriminate|].
      rewrite <- (str_app_nil_r x2) at 2. apply prefix_app_self.
    + assert (Hws : String.prefix w sep = true).
      { apply (prefix_short w sep y Hpw).
        rewrite Hw, str_length_app. lia. }
      rewrite (Hb x2 w Hw Hx2 Hwne) in Hws. discriminate.
Qed.

Lemma split_sub_join sep l :
  sep <> "" -> borderless sep -> l <> [] ->
  Forall (fun x => includes sep x = false) l ->
  split_sub sep (join sep l) = l.
Proof.
  intros Hsep Hb Hl Hall. unfold split_sub.
  assert (G : l <> [] -> forall fuel, String.length (join sep l) <= fuel ->
             split_go fuel sep "" (join sep l) = l).
  { clear Hl. induction Hall as [|x l Hx Hall IH]; intros Hl fuel Hf; [congruence|].
    destruct l as [|y l].
    - unfold join. simpl. apply split_go_none. exact Hx.
    - unfold join in *. change (String.concat sep (x :: y :: l))
        with (x ++ sep ++ String.concat sep (y :: l)) in *.
      rewrite !str_length_app in Hf.
      assert (Hs1 : 1 <= String.length sep) by (destruct sep; [congruence|simpl; lia]).
      rewrite split_go_cut; [| exact Hsep | apply no_early_match; assumption | lia].
      f_equal. apply IH; [discriminate | lia]. }
  apply G; [exact Hl | lia].
Qed.

Lemma isTableInTableNames_In tn t : isTableInTableNames tn t = true <-> In t tn.
Proof.
  induction tn as [|x r IH]; simpl; [split; [discriminate|tauto]|].
  destruct (String.eqb_spec x t) as [->|Hne]; [tauto|].
  rewrite IH. split; [tauto|]. intros [->|H]; [congruence|exact H].
Qed.

(** ** [parseURL] *)

Lemma odata_url_shape sch rest p f :
  odata_url sch rest p f =
  sch ++ String slash ("" ++ String slash (rest ++ String slash ("projects" ++ String slash
     (p ++ String slash ("forms" ++ String slash (f ++ ".svc")))))).
Proof. reflexivity. Qed.

Lemma parseURL_odata (sch rest p f : string) :
  has_char slash sch = false -> has_char slash p = false -> has_char slash f = false ->
  parseURL (odata_url sch rest p f) =
  {| base_URL := sch ++ "//" ++ rest; project_id := Some p; form_id := f |}.
Proof.
  intros Hs Hp Hf.
  assert (Hsvc : has_char slash (f ++ ".svc") = false).
  { clear - Hf. induction f; simpl in *; [reflexivity|].
    apply orb_false_iff in Hf as [H1 H2]. rewrite H1, IHf by exact H2. reflexivity. }
  rewrite odata_url_shape. unfold parseURL.
  rewrite split_char_step by exact Hs.
  rewrite split_char_step by reflexivity.
  rewrite split_char_app.
  rewrite split_char_step by reflexivity.
  rewrite split_char_step by exact Hp.
  rewrite split_char_step by reflexivity.
  rewrite (split_char_none _ _ Hsvc).
  set (R := split_char slash rest).
  assert (HR : R <> []) by apply split_char_nil.
  cbn [hd]. f_equal.
  - f_equal. f_equal. unfold slice. cbn [skipn].
    rewrite length_cons, length_cons, length_app. cbn [List.length].
    replace (Z.to_nat _ - 2) with (List.length R).
    + rewrite firstn_app, firstn_all, Nat.sub_diag. cbn [firstn]. rewrite app_nil_r.
      apply join_split.
    + destruct (Z.ltb_spec (Z.of_nat (S (S (List.length R + 4))) - 4) 0); lia.
  - unfold nth_z. rewrite length_cons, length_cons, length_app. cbn [List.length].
    destruct (Z.ltb_spec (Z.of_nat (S (S (List.length R + 4))) - 3) 0); [lia|].
    replace (Z.to_nat _) with (S (S (List.length R + 1))) by lia.
    cbn [nth_error]. rewrite nth_error_app2 by lia.
    replace (List.length R + 1 - List.length R) with 1 by lia. reflexivity.
  - replace (sch :: "" :: List.app R ["projects"; p; "forms"; f ++ ".svc"])
      with (List.app (sch :: "" :: List.app R ["projects"; p; "forms"]) [f ++ ".svc"])
      by (simpl; rewrite <- app_assoc; reflexivity).
    rewrite last_last. unfold substr0. rewrite str_length_app.
    replace (Z.to_nat _) with (String.length f) by (simpl; lia).
    apply substring0_app.
Qed.

(* ================================================================== *)
(** * Proofs about the service layer *)

(** ** Running a computation step by step *)

Lemma mbind_val {A B} (m : M A) (k : A -> M B) w b w' :
  mbind m k w = (Val b, w') -> exists a w1, m w = (Val a, w1) /\ k a w1 = (Val b, w').
Proof. unfold mbind. destruct (m w) as [[a|e] w1]; intro H; [eauto | discriminate]. Qed.

(** Splits a successful run of a chain of binds into its steps. *)
Ltac peel H :=
  repeat match type of H with
  | mbind _ _ _ = (Val _, _) =>
      let a := fresh "a" in let w1 := fresh "w" in let Hm := fresh "Hm" in
      apply mbind_val in H; destruct H as (a & w1 & Hm & H); cbv beta in H
  end.

(** Discharges the premises of a theorem at a sample input. *)
Ltac discharge :=
  first [ reflexivity | discriminate | (cbn; lia) | (unfold AUTH_TIMEOUT; lia)
        | (repeat constructor) ].

Lemma fetch_val E u r w x w' :
  fetch E u r w = (Val x, w') ->
  http E (List.length (sent w)) u r = Some x /\
  w' = {| uprops := uprops w; sent := List.app (sent w) [(u, r)] |}.
Proof. unfold fetch. destruct (http _ _ _ _); intro H; inversion H; auto. Qed.

Lemma catch_as_val {A} (m : M A) e w a w' :
  catch_as m e w = (Val a, w') -> m w = (Val a, w').
Proof. unfold catch_as. destruct (m w) as [[?|?] ?]; intro H; inversion H; auto. Qed.

Lemma parse_json_val E s w v w' :
  parse_json E s w = (Val v, w') -> json_parse E s = Some v /\ w' = w.
Proof. unfold parse_json. destruct (json_parse E s); intro H; inversion H; auto. Qed.

Lemma lift_val {A} (o : outcome A) w a w' : lift o w = (Val a, w') -> o = Ok a /\ w' = w.
Proof. destruct o; cbn; intro H; inversion H; auto. Qed.

Lemma getProperty_val k w a w' :
  getProperty k w = (Val a, w') -> a = sassoc k (uprops w) /\ w' = w.
Proof. unfold getProperty. intro H; inversion H; auto. Qed.

(** ** Strings *)

Lemma has_char_app c a b : has_char c (a ++ b) = has_char c a || has_char c b.
Proof. induction a as [|d a IH]; cbn; [reflexivity|]. rewrite IH, orb_assoc. reflexivity. Qed.

Lemma lastIndexOf_go_app c x s i acc :
  lastIndexOf_go c (x ++ s) i acc =
  lastIndexOf_go c s (i + Z.of_nat (String.length x)) (lastIndexOf_go c x i acc).
Proof.
  revert i acc; induction x as [|d x IH]; intros i acc; cbn [String.append lastIndexOf_go].
  - rewrite Z.add_0_r. reflexivity.
  - rewrite IH. f_equal. cbn [String.length]. lia.
Qed.

Lemma lastIndexOf_go_none c y i acc :
  has_char c y = false -> lastIndexOf_go c y i acc = acc.
Proof.
  revert i acc; induction y as [|d y IH]; intros i acc; cbn; [reflexivity|].
  intro H. apply orb_false_iff in H as [H1 H2]. rewrite H1. apply IH, H2.
Qed.

(** [s.substr(0, s.lastIndexOf("/"))] cuts at the last [/]. *)
Lemma cut_last_slash x y :
  has_char slash y = false ->
  substr0 (x ++ String slash y) (lastIndexOf slash (x ++ String slash y)) = x.
Proof.
  intro Hy. unfold lastIndexOf. rewrite lastIndexOf_go_app. cbn [lastIndexOf_go].
  rewrite Ascii.eqb_refl, lastIndexOf_go_none by exact Hy.
  unfold substr0. rewrite Z.add_0_l, Nat2Z.id. apply substring0_app.
Qed.

Lemma has_char_remove c p s : p c = true -> has_char c (remove_chars p s) = false.
Proof.
  intro Hc. induction s as [|d s IH]; cbn; [reflexivity|].
  destruct (p d) eqn:Pd; [exact IH|].
  cbn. rewrite IH, orb_false_r. destruct (Ascii.eqb_spec c d); congruence.
Qed.

Lemma split_char_hd_clean c s : has_char c (hd "" (split_char c s)) = false.
Proof.
  induction s as [|d s IH]; cbn; [reflexivity|].
  destruct (Ascii.eqb c d) eqn:E; cbn; [reflexivity|].
  destruct (split_char c s) as [|x r]; cbn in *.
  - rewrite E. reflexivity.
  - rewrite E, IH. reflexivity.
Qed.

Lemma split_char_hd_keep c k s :
  has_char c s = false -> has_char c (hd "" (split_char k s)) = false.
Proof.
  induction s as [|d s IH]; cbn; [reflexivity|].
  intro H. apply orb_false_iff in H as [H1 H2].
  destruct (Ascii.eqb k d); cbn; [reflexivity|].
  specialize (IH H2). destruct (split_char k s) as [|x r]; cbn in *; rewrite H1; [reflexivity|exact IH].
Qed.

Lemma join_values_strs sep names :
  join_values sep (map JStr names) = Ok (String.concat sep names).
Proof.
  induction names as [|x [|y r] IH]; [reflexivity|reflexivity|].
  cbn [map] in *. cbn [join_values]. cbn [join_values] in IH.
  rewrite IH. reflexivity.
Qed.

Lemma map_pair_strs (l : list jsval) names :
  map (fun n => (n, n)) l = map (fun n => (JStr n, JStr n)) names -> l = map JStr names.
Proof.
  revert names; induction l as [|x l IH]; intros [|n names] H; try discriminate; [reflexivity|].
  cbn in H. injection H as -> _ H. cbn. f_equal. apply IH, H.
Qed.

(** ** Logging in *)

Lemma first_login_run E now user pw fullPath w r j tok :
  sassoc "dscc.token" (uprops w) = None ->
  http E (List.length (sent w)) (base_URL (parseURL fullPath) ++ "/sessions")
       (session_request user pw) = Some r ->
  code r = 200%Z -> json_parse E (content r) = Some j -> get_prop j "token" = Ok (JStr tok) ->
  setCredentials E now user pw fullPath w = (Val "NONE", login_world w E now user pw fullPath tok).
Proof.
  intros Htok Hr Hc Hj Ht.
  unfold setCredentials, validateAndStoreCredentials.
  unfold mbind at 1 2 3. unfold getProperty at 1 2. cbn [fst snd]. rewrite Htok.
  unfold getToken, mbind, fetch. cbn [uprops sent].
  change {| rmethod := "post"; rcontentType := Some "application/json"; rheaders := [];
            rpayload := stringify (JObj [("email", JStr user); ("password", JStr pw)]) |}
    with (session_request user pw).
  rewrite Hr, Hc. cbn. unfold parse_json. rewrite Hj. cbn. rewrite Ht. cbn.
  reflexivity.
Qed.

(** X1: while a token is stored, [setCredentials] ignores the username,
    password and path it is given and sends no request. *)
Theorem stored_token_ignores_credentials E now w tok u1 p1 x1 u2 p2 x2 :
  sassoc "dscc.token" (uprops w) = Some tok ->
  setCredentials E now u1 p1 x1 w = setCredentials E now u2 p2 x2 w /\
  sent (snd (setCredentials E now u1 p1 x1 w)) = sent w.
Proof.
  intro Htok. unfold setCredentials, validateAndStoreCredentials, mbind, getProperty.
  cbn -[expired]. rewrite Htok.
  destruct (sassoc "dscc.timestamp" (uprops w)) as [ts|]; [destruct (expired E now ts)|];
    split; reflexivity.
Qed.

Lemma stored_token_ignores_credentials_witness :
  setCredentials env_ok 0 "a" "b" "c" w_logged = setCredentials env_ok 0 "d" "e" "f" w_logged /\
  sent (snd (setCredentials env_ok 0 "a" "b" "c" w_logged)) = sent w_logged.
Proof. apply (stored_token_ignores_credentials env_ok 0 w_logged "tk"); discharge. Defined.

(** X2: without a stored token, [setCredentials] on a form URL
    [sch//rest/projects/p/forms/f.svc] sends exactly one request: the login
    request with the given username and password, to [sch//rest/sessions]. *)
Theorem login_request_goes_to_sessions E now user pw sch rest p f w :
  sassoc "dscc.token" (uprops w) = None ->
  has_char slash sch = false -> has_char slash p = false -> has_char slash f = false ->
  sent (snd (setCredentials E now user pw (odata_url sch rest p f) w)) =
  List.app (sent w) [(sch ++ "//" ++ rest ++ "/sessions", session_request user pw)].
Proof.
  intros Htok Hs Hp Hf.
  unfold setCredentials, validateAndStoreCredentials.
  rewrite (parseURL_odata sch rest p f Hs Hp Hf). cbn [base_URL].
  unfold mbind at 1 2 3. unfold getProperty at 1 2. cbn [fst snd]. rewrite Htok.
  unfold getToken, mbind, fetch. cbn [uprops sent].
  rewrite !str_app_assoc.
  destruct (http E _ _ _) as [r|]; [|reflexivity].
  destruct (negb (code r =? 200)%Z); [reflexivity|].
  unfold parse_json. destruct (json_parse E (content r)) as [j|]; [|reflexivity].
  cbn. destruct (get_prop j "token") as [v| | |]; try reflexivity.
  destruct v; cbn; reflexivity.
Qed.

Lemma login_request_goes_to_sessions_witness :
  sent (snd (setCredentials env_ok 0 "u" "pw" (odata_url "https:" "h/v1" "1" "f") w_empty)) =
  List.app (sent w_empty) [("https:" ++ "//" ++ "h/v1" ++ "/sessions", session_request "u" "pw")].
Proof. apply (login_request_goes_to_sessions env_ok 0 "u" "pw" "https:" "h/v1" "1" "f" w_empty); discharge. Defined.

(** X3: a first login the server accepts (status 200 and a string token)
    answers ["NONE"], sends only the login request, and stores the
    username, password, base path, full path, timestamp and token. *)
Theorem first_login_stores_credentials E now user pw fullPath w r j tok :
  sassoc "dscc.token" (uprops w) = None ->
  http E (List.length (sent w)) (base_URL (parseURL fullPath) ++ "/sessions")
       (session_request user pw) = Some r ->
  code r = 200%Z -> json_parse E (content r) = Some j -> get_prop j "token" = Ok (JStr tok) ->
  let w' := snd (setCredentials E now user pw fullPath w) in
  fst (setCredentials E now user pw fullPath w) = Val "NONE" /\
  sent w' = List.app (sent w) [(base_URL (parseURL fullPath) ++ "/sessions", session_request user pw)] /\
  sassoc "dscc.username" (uprops w') = Some user /\
  sassoc "dscc.password" (uprops w') = Some pw /\
  sassoc "dscc.path" (uprops w') = Some (base_URL (parseURL fullPath)) /\
  sassoc "dscc.fullPath" (uprops w') = Some fullPath /\
  sassoc "dscc.timestamp" (uprops w') = Some (date_toString E now) /\
  sassoc "dscc.token" (uprops w') = Some tok.
Proof.
  intros Htok Hr Hc Hj Ht w'. subst w'.
  rewrite (first_login_run E now user pw fullPath w r j tok Htok Hr Hc Hj Ht).
  cbn [fst snd login_world uprops sent]. rewrite !sassoc_supdate.
  repeat split; reflexivity.
Qed.

Lemma first_login_stores_credentials_witness :
  let w' := snd (setCredentials env_ok 0 "u" "pw" sample_url w_empty) in
  fst (setCredentials env_ok 0 "u" "pw" sample_url w_empty) = Val "NONE" /\
  sent w' = List.app (sent w_empty)
              [(base_URL (parseURL sample_url) ++ "/sessions", session_request "u" "pw")] /\
  sassoc "dscc.username" (uprops w') = Some "u" /\
  sassoc "dscc.password" (uprops w') = Some "pw" /\
  sassoc "dscc.path" (uprops w') = Some (base_URL (parseURL sample_url)) /\
  sassoc "dscc.fullPath" (uprops w') = Some sample_url /\
  sassoc "dscc.timestamp" (uprops w') = Some (date_toString env_ok 0) /\
  sassoc "dscc.token" (uprops w') = Some "tk".
Proof. apply (first_login_stores_credentials env_ok 0 "u" "pw" sample_url w_empty r_ok j_ok "tk"); discharge. Defined.

(** X4: right after such a login, [isAuthValid] holds (and changes
    nothing) at every time within [AUTH_TIMEOUT] hours of the stored
    timestamp. *)
Theorem login_then_auth_valid E now now' user pw fullPath w r j tok t :
  sassoc "dscc.token" (uprops w) = None ->
  http E (List.length (sent w)) (base_URL (parseURL fullPath) ++ "/sessions")
       (session_request user pw) = Some r ->
  code r = 200%Z -> json_parse E (content r) = Some j -> get_prop j "token" = Ok (JStr tok) ->
  date_parse E (date_toString E now) = Some t ->
  (Z.abs (now' - t) <= AUTH_TIMEOUT * 3600000)%Z ->
  let w' := snd (setCredentials E now user pw fullPath w) in
  fst (setCredentials E now user pw fullPath w) = Val "NONE" /\
  isAuthValid E now' w' = (Val true, w').
Proof.
  intros Htok Hr Hc Hj Ht Hd Hle w'. subst w'.
  rewrite (first_login_run E now user pw fullPath w r j tok Htok Hr Hc Hj Ht).
  split; [reflexivity|]. cbn [snd].
  unfold isAuthValid, mbind, getProperty. cbn [login_world uprops].
  rewrite !sassoc_supdate. cbn -[expired]. unfold expired. rewrite Hd.
  destruct (Z.ltb_spec (AUTH_TIMEOUT * 3600000) (Z.abs (now' - t))); [lia|]. reflexivity.
Qed.

Lemma login_then_auth_valid_witness :
  let w' := snd (setCredentials env_ok 0 "u" "pw" sample_url w_empty) in
  fst (setCredentials env_ok 0 "u" "pw" sample_url w_empty) = Val "NONE" /\
  isAuthValid env_ok 3600000 w' = (Val true, w').
Proof.
  apply (login_then_auth_valid env_ok 0 3600000 "u" "pw" sample_url w_empty r_ok j_ok "tk" 0);
    discharge.
Defined.

(** X5: a first login the server answers with a status other than 200
    answers ["INVALID_CREDENTIALS"], sends only the login request and
    stores nothing. *)
Theorem rejected_login E now user pw fullPath w r :
  sassoc "dscc.token" (uprops w) = None ->
  http E (List.length (sent w)) (base_URL (parseURL fullPath) ++ "/sessions")
       (session_request user pw) = Some r ->
  code r <> 200%Z ->
  setCredentials E now user pw fullPath w =
  (Val "INVALID_CREDENTIALS",
   {| uprops := uprops w;
      sent := List.app (sent w)
                [(base_URL (parseURL fullPath) ++ "/sessions", session_request user pw)] |}).
Proof.
  intros Htok Hr Hc.
  unfold setCredentials, validateAndStoreCredentials.
  unfold mbind at 1 2 3. unfold getProperty at 1 2. cbn [fst snd]. rewrite Htok.
  unfold getToken, mbind, fetch. cbn [uprops sent].
  change {| rmethod := "post"; rcontentType := Some "application/json"; rheaders := [];
            rpayload := stringify (JObj [("email", JStr user); ("password", JStr pw)]) |}
    with (session_request user pw).
  rewrite Hr. apply Z.eqb_neq in Hc. rewrite Hc. reflexivity.
Qed.

Lemma rejected_login_witness :
  setCredentials env_denied 0 "u" "pw" sample_url w_empty =
  (Val "INVALID_CREDENTIALS",
   {| uprops := uprops w_empty;
      sent := List.app (sent w_empty)
                [(base_URL (parseURL sample_url) ++ "/sessions", session_request "u" "pw")] |}).
Proof.
  apply (rejected_login env_denied 0 "u" "pw" sample_url w_empty {| code := 401; content := "" |});
    discharge.
Defined.

(** X6: a stored token without a timestamp is accepted: [setCredentials]
    answers ["NONE"], stamps the current time and sends no request. *)
Theorem token_without_timestamp_is_stamped E now user pw path w tok :
  sassoc "dscc.token" (uprops w) = Some tok -> sassoc "dscc.timestamp" (uprops w) = None ->
  setCredentials E now user pw path w =
  (Val "NONE", {| uprops := supdate "dscc.timestamp" (date_toString E now) (uprops w);
                  sent := sent w |}).
Proof.
  intros Htok Hts. unfold setCredentials, validateAndStoreCredentials, mbind, getProperty.
  cbn -[expired supdate]. rewrite Htok, Hts. reflexivity.
Qed.

Lemma token_without_timestamp_is_stamped_witness :
  setCredentials env_ok 0 "u" "pw" sample_url {| uprops := [("dscc.token", "tk")]; sent := [] |} =
  (Val "NONE", {| uprops := supdate "dscc.timestamp" (date_toString env_ok 0) [("dscc.token", "tk")];
                  sent := [] |}).
Proof.
  apply (token_without_timestamp_is_stamped env_ok 0 "u" "pw" sample_url
           {| uprops := [("dscc.token", "tk")]; sent := [] |} "tk"); discharge.
Defined.

(** ** Authentication check *)

(** X7: a stored timestamp [Date.parse] cannot read never expires:
    [isAuthValid] then answers whether a token is stored, and changes
    nothing. *)
Theorem unparsable_timestamp_never_expires E now w ts :
  sassoc "dscc.timestamp" (uprops w) = Some ts -> date_parse E ts = None ->
  isAuthValid E now w =
  (Val (match sassoc "dscc.token" (uprops w) with Some _ => true | None => false end), w).
Proof.
  intros Hts Hd. unfold isAuthValid, mbind, getProperty. cbn -[expired].
  rewrite Hts. unfold expired. rewrite Hd. reflexivity.
Qed.

Lemma unparsable_timestamp_never_expires_witness :
  isAuthValid env_ok 0 {| uprops := [("dscc.token", "tk"); ("dscc.timestamp", "bad")]; sent := [] |} =
  (Val (match sassoc "dscc.token" [("dscc.token", "tk"); ("dscc.timestamp", "bad")] with
        | Some _ => true | None => false end),
   {| uprops := [("dscc.token", "tk"); ("dscc.timestamp", "bad")]; sent := [] |}).
Proof.
  apply (unparsable_timestamp_never_expires env_ok 0
           {| uprops := [("dscc.token", "tk"); ("dscc.timestamp", "bad")]; sent := [] |} "bad");
    discharge.
Defined.

(** X8: once more than [AUTH_TIMEOUT] hours separate now from the stored
    timestamp, [isAuthValid] answers [false] and deletes every stored
    property. *)
Theorem expired_timestamp_logs_out E now w ts t :
  sassoc "dscc.timestamp" (uprops w) = Some ts -> date_parse E ts = Some t ->
  (AUTH_TIMEOUT * 3600000 < Z.abs (now - t))%Z ->
  isAuthValid E now w = (Val false, {| uprops := []; sent := sent w |}).
Proof.
  intros Hts Hd Hgt. unfold isAuthValid, mbind, getProperty. cbn -[expired].
  rewrite Hts. unfold expired. rewrite Hd.
  destruct (Z.ltb_spec (AUTH_TIMEOUT * 3600000) (Z.abs (now - t))); [|lia]. reflexivity.
Qed.

Lemma expired_timestamp_logs_out_witness :
  isAuthValid env_ok 86400001 w_logged = (Val false, {| uprops := []; sent := sent w_logged |}).
Proof. apply (expired_timestamp_logs_out env_ok 86400001 w_logged "t0" 0); discharge. Defined.

(** X9: [setToken] sends the stored username and password to the
    stored path's [/sessions], and nothing else. *)
Theorem setToken_resends_stored_credentials E w user pw path :
  sassoc "dscc.username" (uprops w) = Some user ->
  sassoc "dscc.password" (uprops w) = Some pw ->
  sassoc "dscc.path" (uprops w) = Some path ->
  sent (snd (setToken E w)) = List.app (sent w) [(path ++ "/sessions", session_request user pw)].
Proof.
  intros Hu Hp Hpath. unfold setToken, mbind at 1 2 3, getProperty. cbn [fst snd].
  rewrite Hu, Hp, Hpath. cbn [str_or_null].
  unfold getToken, mbind, fetch. cbn [uprops sent].
  destruct (http E _ _ _) as [r|]; [|reflexivity].
  destruct (negb (code r =? 200)%Z); [reflexivity|].
  unfold parse_json. destruct (json_parse E (content r)) as [j|]; [|reflexivity].
  cbn. destruct (get_prop j "token") as [v| | |]; try reflexivity.
  destruct v; cbn; reflexivity.
Qed.

Lemma setToken_resends_stored_credentials_witness :
  sent (snd (setToken env_ok w_logged)) =
  List.app (sent w_logged) [("https://h/v1" ++ "/sessions", session_request "u" "pw")].
Proof. apply (setToken_resends_stored_credentials env_ok w_logged "u" "pw" "https://h/v1"); discharge. Defined.

(** ** Table metadata *)

(** X10: the table names [getAvailableTablesFromURL] returns, when they
    are strings that do not contain [UNIQUE_SEPARATOR], are exactly what
    [getFields] later reads back from the [tableNames] property; an empty
    list is stored as the empty string and read back as [[""]]. *)
Theorem tableNames_round_trip E URL w w' names :
  getAvailableTablesFromURL E URL w = (Val (map (fun n => (JStr n, JStr n)) names), w') ->
  Forall (fun n => includes UNIQUE_SEPARATOR n = false) names ->
  getFields_tableNames w' = (Val (match names with [] => [""] | _ => names end), w').
Proof.
  intros H Hsep. unfold getAvailableTablesFromURL in H.
  peel H.
  destruct (negb (code a1 =? 200)%Z); [discriminate|].
  peel H.
  unfold ret in H. injection H as Hres <-.
  apply map_pair_strs in Hres. subst a5.
  rewrite join_values_strs in Hm6. cbn in Hm6. injection Hm6 as <- <-.
  unfold setProperty in Hm7. injection Hm7 as _ <-.
  unfold getFields_tableNames, mbind, getProperty. cbn [uprops].
  rewrite sassoc_supdate. cbn.
  unfold ret. f_equal. f_equal.
  destruct names as [|n0 names]; [reflexivity|].
  apply split_sub_join; auto.
  - discriminate.
  - apply sep_borderless.
  - discriminate.
Qed.

Lemma tableNames_round_trip_witness :
  getFields_tableNames (snd (getAvailableTablesFromURL env_two sample_url w_logged)) =
  (Val ["Submissions"; "Submissions.repeat1"],
   snd (getAvailableTablesFromURL env_two sample_url w_logged)).
Proof.
  apply (tableNames_round_trip env_two sample_url w_logged
           (snd (getAvailableTablesFromURL env_two sample_url w_logged))
           ["Submissions"; "Submissions.repeat1"]); discharge.
Defined.

(** X11: when the count request is answered with status 200,
    [getNumberOfRowsInTable] sends that one request, changes no property
    and returns the answer's [@odata.count]. *)
Theorem rows_count_single_request E URL tableName w r j v :
  http E (List.length (sent w)) (count_url URL tableName)
       (get_options (sassoc "dscc.token" (uprops w))) = Some r ->
  code r = 200%Z -> json_parse E (content r) = Some j ->
  get_prop j "@odata.count" = Ok v ->
  getNumberOfRowsInTable E URL tableName w =
  (Val v, {| uprops := uprops w;
             sent := List.app (sent w)
                       [(count_url URL tableName, get_options (sassoc "dscc.token" (uprops w)))] |}).
Proof.
  intros Hr Hc Hj Hv. unfold getNumberOfRowsInTable, mbind, getProperty, catch_as, fetch.
  change (join "" [URL; "/"; tableName; "?%24top=1&%24count=true"]) with (count_url URL tableName).
  cbn [uprops sent fst snd]. rewrite Hr, Hc. cbn. unfold parse_json. rewrite Hj. cbn. rewrite Hv.
  reflexivity.
Qed.

Lemma rows_count_single_request_witness :
  getNumberOfRowsInTable env_ok sample_url "Submissions" w_logged =
  (Val (JNum "7"),
   {| uprops := uprops w_logged;
      sent := List.app (sent w_logged)
                [(count_url sample_url "Submissions",
                  get_options (sassoc "dscc.token" (uprops w_logged)))] |}).
Proof.
  apply (rows_count_single_request env_ok sample_url "Submissions" w_logged r_ok j_ok);
    discharge.
Defined.

(** X12: when the count request is refused, the retry asks for the bare
    [URL] (without the table and the count query), and the value returned
    is the [@odata.count] member of that answer, whatever its status. *)
Theorem rows_count_retry_reads_bare_url E URL tableName w w' r1 v :
  http E (List.length (sent w)) (count_url URL tableName)
       (get_options (sassoc "dscc.token" (uprops w))) = Some r1 ->
  code r1 <> 200%Z ->
  getNumberOfRowsInTable E URL tableName w = (Val v, w') ->
  exists tok r2 j2 pre,
    sent w' = List.app pre [(URL, get_options tok)] /\
    http E (List.length pre) URL (get_options tok) = Some r2 /\
    json_parse E (content r2) = Some j2 /\ get_prop j2 "@odata.count" = Ok v.
Proof.
  intros Hr Hc H. unfold getNumberOfRowsInTable in H. peel H.
  apply getProperty_val in Hm as [-> ->].
  apply catch_as_val, fetch_val in Hm0 as [Hr' ->].
  change (join "" [URL; "/"; tableName; "?%24top=1&%24count=true"])
    with (count_url URL tableName) in Hr'.
  rewrite Hr in Hr'. injection Hr' as <-.
  apply Z.eqb_neq in Hc. rewrite Hc in Hm1. cbn [negb] in Hm1. peel Hm1.
  apply getProperty_val in Hm0 as [-> ->].
  apply fetch_val in Hm1 as [Hr2 ->].
  apply catch_as_val, parse_json_val in Hm2 as [Hj ->].
  apply lift_val in H as [Hv ->].
  eexists _, a1, a2, _. repeat split; eauto.
Qed.

Lemma rows_count_retry_reads_bare_url_witness :
  exists tok r2 j2 pre,
    sent (snd (getNumberOfRowsInTable env_retry sample_url "Submissions" w_logged)) =
      List.app pre [(sample_url, get_options tok)] /\
    http env_retry (List.length pre) sample_url (get_options tok) = Some r2 /\
    json_parse env_retry (content r2) = Some j2 /\ get_prop j2 "@odata.count" = Ok (JNum "7").
Proof.
  apply (rows_count_retry_reads_bare_url env_retry sample_url "Submissions" w_logged
           (snd (getNumberOfRowsInTable env_retry sample_url "Submissions" w_logged))
           {| code := 401; content := "body" |}); discharge.
Defined.

(** ** [getData]: the server check *)

(** X13: with a stored login, [getData] accepts a URL exactly when its
    part before the last [/] equals that of the stored full path; on a
    mismatch it deletes every stored property and throws the mismatch
    error. *)
Theorem server_check_compares_before_last_slash x1 y1 x2 y2 w p :
  sassoc "dscc.path" (uprops w) = Some p ->
  sassoc "dscc.fullPath" (uprops w) = Some (x1 ++ String slash y1) ->
  has_char slash y1 = false -> has_char slash y2 = false ->
  getData_server_check (x2 ++ String slash y2) w =
  if String.eqb x1 x2 then (Val tt, w)
  else (Exc (UserError server_mismatch_text), {| uprops := []; sent := sent w |}).
Proof.
  intros Hp Hfp Hy1 Hy2. unfold getData_server_check, mbind, getProperty.
  cbn [fst snd]. rewrite Hp, Hfp. cbv zeta.
  rewrite !cut_last_slash by assumption.
  destruct (String.eqb x1 x2); reflexivity.
Qed.

Lemma server_check_compares_before_last_slash_witness :
  getData_server_check ("https://h/v1/projects/2/forms" ++ String slash "g.svc") w_logged =
  if String.eqb "https://h/v1/projects/1/forms" "https://h/v1/projects/2/forms" then (Val tt, w_logged)
  else (Exc (UserError server_mismatch_text), {| uprops := []; sent := sent w_logged |}).
Proof.
  apply (server_check_compares_before_last_slash "https://h/v1/projects/1/forms" "f.svc"
           "https://h/v1/projects/2/forms" "g.svc" w_logged "https://h/v1"); discharge.
Defined.

(** X14: after a login with one form URL, [getData] accepts every other
    form of the same project without logging out. *)
Theorem server_check_same_project_other_form sch rest p f1 f2 w path :
  sassoc "dscc.path" (uprops w) = Some path ->
  sassoc "dscc.fullPath" (uprops w) = Some (odata_url sch rest p f1) ->
  has_char slash f1 = false -> has_char slash f2 = false ->
  getData_server_check (odata_url sch rest p f2) w = (Val tt, w).
Proof.
  intros Hp Hfp H1 H2. unfold getData_server_check, mbind, getProperty.
  cbn [fst snd]. rewrite Hp, Hfp. cbv zeta.
  set (pre := sch ++ "//" ++ rest ++ "/projects/" ++ p ++ "/forms").
  assert (E : forall f, odata_url sch rest p f = pre ++ String slash (f ++ ".svc")).
  { intro f. unfold pre, odata_url. rewrite !str_app_assoc. reflexivity. }
  rewrite !E, !cut_last_slash.
  - rewrite String.eqb_refl. reflexivity.
  - rewrite has_char_app, H2. reflexivity.
  - rewrite has_char_app, H1. reflexivity.
Qed.

Lemma server_check_same_project_other_form_witness :
  getData_server_check (odata_url "https:" "h/v1" "1" "g") w_logged = (Val tt, w_logged).
Proof.
  apply (server_check_same_project_other_form "https:" "h/v1" "1" "f" "g" w_logged "https://h/v1");
    discharge.
Defined.

(** ** [getData]: the paging loop *)

Lemma firstn_add_skipn {A} a b (l : list A) :
  firstn (a + b) l = List.app (firstn a l) (firstn b (skipn a l)).
Proof.
  revert l; induction a as [|a IH]; intros [|x l]; cbn; auto.
  - rewrite firstn_nil. reflexivity.
  - f_equal. apply IH.
Qed.

(** The bound of [data_loop] drops by one on every pass that goes on, so
    its [O] branch is never taken with a true loop condition. *)
Lemma loop_bound_step top :
  num_pos (num_add top (-50000)) = true ->
  loop_bound top = S (loop_bound (num_add top (-50000))).
Proof.
  destruct top as [t|]; cbn; [|discriminate]. intro H. apply Z.ltb_lt in H.
  replace (t - 1)%Z with ((t + -50000 - 1) + 1 * 50000)%Z by lia.
  rewrite Z.div_add by lia. rewrite Z2Nat.inj_add; [|apply Z.div_pos; lia|lia].
  cbn. lia.
Qed.

Lemma loop_bound_last t :
  num_pos (num_add (Some t) (-50000)) = false -> loop_bound (Some t) = O.
Proof.
  cbn. intro H. apply Z.ltb_ge in H.
  assert (Hq : ((t - 1) / 50000 < 1)%Z) by (apply Z.div_lt_upper_bound; lia).
  destruct ((t - 1) / 50000)%Z; [reflexivity | lia | reflexivity].
Qed.

Lemma firstn_min_nil (l : list jsval) t c :
  (0 < c)%Z -> firstn (Z.to_nat (Z.min t c)) l = [] -> firstn (Z.to_nat t) l = [].
Proof.
  intros Hc H. destruct l as [|x l]; [apply firstn_nil|].
  destruct (Z.to_nat (Z.min t c)) eqn:E; [|discriminate].
  assert (Ht : Z.to_nat t = O) by lia. rewrite Ht. reflexivity.
Qed.

Lemma capped_loop_go rows n s t acc w :
  (0 <= s)%Z -> n = loop_bound (Some t) ->
  data_loop_go n (capped_server rows 50000) (Some s) (Some t) acc w =
  (Val (List.app acc (firstn (Z.to_nat t) (skipn (Z.to_nat s) rows))), w).
Proof.
  revert s t acc; induction n as [|n IH]; intros s t acc Hs Hn;
  cbn [data_loop_go]; unfold mbind, capped_server, ret;
  set (page := firstn (Z.to_nat (Z.min t 50000)) (skipn (Z.to_nat s) rows)).
  all: destruct (Nat.eqb (List.length page) 0) eqn:E; cbn [negb andb].
  all: try (apply Nat.eqb_eq, length_zero_iff_nil in E;
            rewrite (firstn_min_nil _ t 50000), E by (lia || exact E); reflexivity).
  all: destruct (num_pos (num_add (Some t) (-50000))) eqn:P.
  - rewrite loop_bound_step in Hn by exact P. discriminate.
  - cbn in P. apply Z.ltb_ge in P. unfold page. rewrite Z.min_l by lia. reflexivity.
  - rewrite loop_bound_step in Hn by exact P. injection Hn as Hn.
    cbn [num_add option_map]. rewrite IH by (cbn [num_add option_map] in Hn; lia || exact Hn).
    cbn in P. apply Z.ltb_lt in P.
    unfold page. rewrite Z.min_r by lia.
    replace (Z.to_nat t) with (Z.to_nat 50000 + Z.to_nat (t + -50000))%nat
      by (rewrite <- Z2Nat.inj_add by lia; f_equal; lia).
    rewrite firstn_add_skipn, skipn_skipn, <- app_assoc.
    rewrite (Z.add_comm s), (Z2Nat.inj_add 50000 s) by lia. reflexivity.
  - cbn in P. apply Z.ltb_ge in P. unfold page. rewrite Z.min_l by lia. reflexivity.
Qed.

(** X15: against a server that returns at most 50000 rows per request,
    the paging loop collects exactly the [top] rows from row [skip] on (or
    all rows from [skip] on when fewer are left), in order, without
    changing the store. *)
Theorem paging_exact_for_50000_cap rows s t w :
  (0 <= s)%Z ->
  data_loop (capped_server rows 50000) (Some s) (Some t) w =
  (Val (firstn (Z.to_nat t) (skipn (Z.to_nat s) rows)), w).
Proof. intro Hs. unfold data_loop. rewrite capped_loop_go by auto. reflexivity. Qed.

Lemma paging_exact_for_50000_cap_witness :
  data_loop (capped_server [JNull; JStr "a"; JStr "b"] 50000) (Some 1%Z) (Some 5%Z) w_empty =
  (Val (firstn (Z.to_nat 5) (skipn (Z.to_nat 1) [JNull; JStr "a"; JStr "b"])), w_empty).
Proof. apply (paging_exact_for_50000_cap [JNull; JStr "a"; JStr "b"] 1 5 w_empty); discharge. Defined.

(** X16: against a server that returns every row asked for, a request for
    [top] rows with [50000 < top <= 100000] makes a second request from
    row [skip + 50000] and appends its rows after the [top] rows already
    returned: rows past [skip + 50000] come back twice. *)
Theorem paging_repeats_rows_of_uncapped_server rows s t w :
  (0 <= s)%Z -> (Z.to_nat s < List.length rows)%nat -> (50000 < t <= 100000)%Z ->
  data_loop (full_server rows) (Some s) (Some t) w =
  (Val (List.app (firstn (Z.to_nat t) (skipn (Z.to_nat s) rows))
                 (firstn (Z.to_nat (t - 50000)) (skipn (Z.to_nat (s + 50000)) rows))), w).
Proof.
  intros Hs Hlen Ht. unfold data_loop.
  assert (Hb : loop_bound (Some t) = S O).
  { rewrite loop_bound_step by (cbn; apply Z.ltb_lt; lia).
    change (num_add (Some t) (-50000)) with (Some (t + -50000)%Z).
    rewrite loop_bound_last by (cbn; apply Z.ltb_ge; lia). reflexivity. }
  rewrite Hb. cbn [data_loop_go]. unfold mbind, full_server, ret.
  destruct (skipn (Z.to_nat s) rows) as [|x r] eqn:Es.
  { apply (f_equal (@List.length jsval)) in Es. rewrite length_skipn in Es. cbn in Es. lia. }
  destruct (Z.to_nat t) as [|k] eqn:Ek; [lia|].
  cbn [firstn List.length Nat.eqb negb andb num_add option_map num_pos].
  destruct (Z.ltb_spec 0 (t + -50000)); [|lia].
  destruct (Z.ltb_spec 0 (t + -50000 + -50000)); [lia|].
  rewrite andb_false_r. replace (t + -50000)%Z with (t - 50000)%Z by lia. reflexivity.
Qed.

Lemma paging_repeats_rows_of_uncapped_server_witness :
  data_loop (full_server (map (fun k => JNum (nat_to_dec k)) (seq 0 (Z.to_nat 50002))))
    (Some 0%Z) (Some 50002%Z) w_empty =
  (Val (List.app
          (firstn (Z.to_nat 50002)
             (skipn (Z.to_nat 0) (map (fun k => JNum (nat_to_dec k)) (seq 0 (Z.to_nat 50002)))))
          (firstn (Z.to_nat (50002 - 50000))
             (skipn (Z.to_nat (0 + 50000))
                (map (fun k => JNum (nat_to_dec k)) (seq 0 (Z.to_nat 50002)))))),
   w_empty).
Proof.
  apply (paging_repeats_rows_of_uncapped_server
           (map (fun k => JNum (nat_to_dec k)) (seq 0 (Z.to_nat 50002))) 0 50002 w_empty).
  - lia.
  - rewrite length_map, length_seq. lia.
  - lia.
Defined.

Section Requests.
Variable E : env.
Hypothesis all_ok : forall k u r, exists resp j x l,
  http E k u r = Some resp /\ code resp = 200%Z /\ json_parse E (content resp) = Some j /\
  get_prop j "value" = Ok (JArr (x :: l)).

Lemma request_page_ok url P s t w :
  (0 <= s <= 2 ^ 53)%Z -> (- 2 ^ 53 <= t)%Z -> (s + t <= 2 ^ 53)%Z ->
  exists x l, request_page E url P (Some s) (Some t) w =
  (Val (x :: l), {| uprops := uprops w; sent := List.app (sent w) [(page_url url s t 0, P)] |}).
Proof.
  intros Hs Ht Hst.
  assert (Hu : page_url url s t 0 =
               url ++ "?%24skip=" ++ num_text (Some s) ++ "&%24top=" ++ num_text (Some t)).
  { unfold page_url. cbn [Z.of_nat num_text]. rewrite Z.mul_0_r, Z.add_0_r, Z.sub_0_r.
    reflexivity. }
  rewrite Hu.
  destruct (all_ok (List.length (sent w))
              (url ++ "?%24skip=" ++ num_text (Some s) ++ "&%24top=" ++ num_text (Some t)) P)
    as (resp & j & x & l & Hr & Hc & Hj & Hv).
  exists x, l. unfold request_page.
  assert (Hsafe : num_safe (Some s) && num_safe (Some t) = true).
  { cbn. apply andb_true_iff; split; apply Z.leb_le; lia. }
  rewrite Hsafe. cbn [negb]. cbv zeta. unfold mbind, fetch. rewrite Hr, Hc.
  cbn [negb Z.eqb Pos.eqb]. unfold ret, parse_json. rewrite Hj. cbn. rewrite Hv. reflexivity.
Qed.

Lemma page_url_shift url s t k :
  page_url url (s + 50000) (t + -50000) k = page_url url s t (S k).
Proof.
  unfold page_url. rewrite Nat2Z.inj_succ.
  replace (s + 50000 + 50000 * Z.of_nat k)%Z with (s + 50000 * Z.succ (Z.of_nat k))%Z by lia.
  replace (t + -50000 - 50000 * Z.of_nat k)%Z with (t - 50000 * Z.succ (Z.of_nat k))%Z by lia.
  reflexivity.
Qed.

Lemma pages_go url P n s t acc w :
  n = loop_bound (Some t) -> (0 <= s <= 2 ^ 53)%Z -> (- 2 ^ 53 <= t)%Z -> (s + t <= 2 ^ 53)%Z ->
  exists rows, data_loop_go n (request_page E url P) (Some s) (Some t) acc w =
  (Val rows, {| uprops := uprops w;
                sent := List.app (sent w) (map (fun k => (page_url url s t k, P)) (seq 0 (S n))) |}).
Proof.
  revert s t acc w; induction n as [|n IH]; intros s t acc w Hn Hs Ht Hst;
  destruct (request_page_ok url P s t w Hs Ht Hst) as (x & l & Hpg);
  cbn [data_loop_go]; unfold mbind; rewrite Hpg; cbn [List.length Nat.eqb negb andb].
  - destruct (num_pos (num_add (Some t) (-50000))) eqn:P0.
    + rewrite loop_bound_step in Hn by exact P0. discriminate.
    + eexists. reflexivity.
  - destruct (num_pos (num_add (Some t) (-50000))) eqn:P0.
    + rewrite loop_bound_step in Hn by exact P0. injection Hn as Hn.
      cbn in P0. apply Z.ltb_lt in P0.
      cbn [num_add option_map] in Hn |- *.
      destruct (IH (s + 50000)%Z (t + -50000)%Z (List.app acc (x :: l))
                  {| uprops := uprops w; sent := List.app (sent w) [(page_url url s t 0, P)] |}
                  Hn ltac:(lia) ltac:(lia) ltac:(lia)) as [rows Hrows].
      exists rows. rewrite Hrows. cbn [uprops sent].
      assert (Hm : map (fun k => (page_url url (s + 50000) (t + -50000) k, P)) (seq 0 (S n)) =
                   map (fun k => (page_url url s t k, P)) (seq 1 (S n))).
      { rewrite <- seq_shift, map_map. apply map_ext. intro k. rewrite page_url_shift.
        reflexivity. }
      rewrite Hm, <- app_assoc. reflexivity.
    + rewrite loop_bound_last in Hn by exact P0. discriminate.
Qed.
End Requests.

(** X17: when every request is answered with status 200 and a non-empty
    [value] array, [getData]'s loop for [top] rows from row [skip] sends
    [loop_bound top + 1] requests (that is, [ceil(top / 50000)] for a
    positive [top], and one request for [top <= 0]), the [k]-th for
    [$skip = skip + 50000k] and [$top = top - 50000k], all with the options
    built before the loop, and changes no property.  [skip], [top] and
    [skip + top] stay within the integers a double holds exactly. *)
Theorem getData_pages_requests E url tok s t w :
  (forall k u r, exists resp j x l,
     http E k u r = Some resp /\ code resp = 200%Z /\ json_parse E (content resp) = Some j /\
     get_prop j "value" = Ok (JArr (x :: l))) ->
  (0 <= s <= 2 ^ 53)%Z -> (- 2 ^ 53 <= t)%Z -> (s + t <= 2 ^ 53)%Z ->
  exists rows, getData_pages E url tok (Some s) (Some t) w =
  (Val rows, {| uprops := uprops w;
                sent := List.app (sent w)
                          (map (fun k => (page_url url s t k, getData_params tok))
                               (seq 0 (S (loop_bound (Some t))))) |}).
Proof.
  intros Hok Hs Ht Hst. unfold getData_pages, data_loop.
  apply pages_go; auto.
Qed.

Lemma getData_pages_requests_witness :
  (exists rows, getData_pages env_ok "https://h/t" (Some "tk") (Some 0%Z) (Some 120000%Z) w_empty =
   (Val rows, {| uprops := uprops w_empty;
                 sent := List.app (sent w_empty)
                           (map (fun k => (page_url "https://h/t" 0 120000 k, getData_params (Some "tk")))
                                (seq 0 (S (loop_bound (Some 120000%Z))))) |})) /\
  (exists rows, getData_pages env_ok "https://h/t" (Some "tk") (Some 30%Z) (Some (-20)%Z) w_empty =
   (Val rows, {| uprops := uprops w_empty;
                 sent := List.app (sent w_empty)
                           (map (fun k => (page_url "https://h/t" 30 (-20) k, getData_params (Some "tk")))
                                (seq 0 (S (loop_bound (Some (-20)%Z))))) |})).
Proof.
  split.
  - apply (getData_pages_requests env_ok "https://h/t" (Some "tk") 0 120000 w_empty).
    + intros k u r. exists r_ok, j_ok, (JObj [("name", JStr "Submissions")]), [].
      repeat split; reflexivity.
    + lia.
    + lia.
    + lia.
  - apply (getData_pages_requests env_ok "https://h/t" (Some "tk") 30 (-20) w_empty).
    + intros k u r. exists r_ok, j_ok, (JObj [("name", JStr "Submissions")]), [].
      repeat split; reflexivity.
    + lia.
    + lia.
    + lia.
Defined.

(** ** [parseURL] *)

(** X18: on a form URL [sch//rest/projects/p/forms/f.svc] (no [/] in
    [sch], [p] and [f]), [parseURL] returns the base [sch//rest], the
    project [p] and the form [f]. *)
Theorem parseURL_odata_url (sch rest p f : string) :
  has_char slash sch = false -> has_char slash p = false -> has_char slash f = false ->
  parseURL (odata_url sch rest p f) =
  {| base_URL := sch ++ "//" ++ rest; project_id := Some p; form_id := f |}.
Proof. exact (parseURL_odata sch rest p f). Qed.

Lemma parseURL_odata_url_witness :
  parseURL (odata_url "https:" "h/v1" "1" "f") =
  {| base_URL := "https:" ++ "//" ++ "h/v1"; project_id := Some "1"; form_id := "f" |}.
Proof. apply (parseURL_odata_url "https:" "h/v1" "1" "f"); discharge. Defined.

(** X19: on a URL that ends with [/], [parseURL] returns the empty form
    id. *)
Theorem parseURL_trailing_slash u : form_id (parseURL (u ++ "/")) = "".
Proof.
  unfold parseURL. cbn [form_id].
  replace (u ++ "/") with (u ++ String slash "") by reflexivity.
  rewrite split_char_app. cbn [split_char]. rewrite last_last. reflexivity.
Qed.

(** ** [testSchema] *)

Lemma appends_ret {A} (a : A) : appends_sent (ret a).
Proof. intro w. exists []. rewrite app_nil_r. reflexivity. Qed.
Lemma appends_throw {A} e : appends_sent (@throw A e).
Proof. intro w. exists []. rewrite app_nil_r. reflexivity. Qed.
Lemma appends_getProperty k : appends_sent (getProperty k).
Proof. intro w. exists []. rewrite app_nil_r. reflexivity. Qed.
Lemma appends_setProperty k v : appends_sent (setProperty k v).
Proof. intro w. exists []. rewrite app_nil_r. reflexivity. Qed.
Lemma appends_fetch E u r : appends_sent (fetch E u r).
Proof. intro w. exists [(u, r)]. unfold fetch. destruct (http E _ _ _); reflexivity. Qed.
Lemma appends_parse_json E s : appends_sent (parse_json E s).
Proof. unfold parse_json. destruct (json_parse E s); [apply appends_ret | apply appends_throw]. Qed.
Lemma appends_lift {A} (o : outcome A) : appends_sent (lift o).
Proof. destruct o; cbn; [apply appends_ret | apply appends_throw ..]. Qed.
Lemma appends_prop_value v : appends_sent (prop_value v).
Proof. destruct v; cbn; first [apply appends_ret | apply appends_throw]. Qed.
Lemma appends_bind {A B} (m : M A) (k : A -> M B) :
  appends_sent m -> (forall a, appends_sent (k a)) -> appends_sent (mbind m k).
Proof.
  intros Hm Hk w. destruct (Hm w) as [l1 H1]. unfold mbind.
  destruct (m w) as [[a|e] w1]; cbn [snd] in H1 |- *.
  - destruct (Hk a w1) as [l2 H2]. exists (List.app l1 l2). rewrite H2, H1, app_assoc. reflexivity.
  - exists l1. exact H1.
Qed.

Ltac appends :=
  repeat first [ apply appends_bind; [|intro]
               | apply appends_ret | apply appends_throw | apply appends_getProperty
               | apply appends_setProperty | apply appends_fetch | apply appends_parse_json
               | apply appends_lift | apply appends_prop_value
               | match goal with |- appends_sent (match ?x with _ => _ end) => destruct x end
               | match goal with |- appends_sent (if ?x then _ else _) => destruct x end ].

Lemma appends_getToken E u p path : appends_sent (getToken E u p path).
Proof. unfold getToken. appends. Qed.
Lemma appends_setToken E : appends_sent (setToken E).
Proof. unfold setToken. appends. Qed.

Lemma fetch_then {B} E u r (k : http_response -> M B) w :
  (forall x, appends_sent (k x)) ->
  exists more, sent (snd (mbind (fetch E u r) k w)) = List.app (sent w) ((u, r) :: more).
Proof.
  intro Hk. unfold mbind, fetch. destruct (http E _ _ _) as [x|].
  - destruct (Hk x {| uprops := uprops w; sent := List.app (sent w) [(u, r)] |}) as [l Hl].
    exists l. rewrite Hl. cbn [sent]. rewrite <- app_assoc. reflexivity.
  - exists []. reflexivity.
Qed.

Lemma testSchema_odata E sch rest p f base w :
  has_char slash sch = false -> has_char slash p = false -> has_char slash f = false ->
  sassoc "dscc.path" (uprops w) = Some base ->
  testSchema E (Some (odata_url sch rest p f)) w =
  mbind (fetch E (base ++ "/projects/" ++ p ++ "/forms/" ++ f ++ "/fields")
               (get_options (sassoc "dscc.token" (uprops w))))
    (fun response =>
       response <-- (if negb (Z.eqb (code response) 200)
                     then _ <-- setToken E ;;;
                          tok' <-- getProperty "dscc.token" ;;;
                          fetch E (base ++ "/projects/" ++ p ++ "/forms/" ++ f ++ "/fields")
                                (get_options tok')
                     else ret response) ;;;
       if negb (Z.eqb (code response) 200) then throw (UserError wrong_combination_text)
       else parse_json E (content response)) w.
Proof.
  intros Hs Hp Hf Hb.
  unfold testSchema. cbv beta iota zeta. rewrite (parseURL_odata sch rest p f Hs Hp Hf).
  unfold mbind at 1, getProperty at 1. rewrite Hb. reflexivity.
Qed.


(** X20: [testSchema] on a form URL sends, as its first request, the
    stored path's [/projects/p/forms/f/fields] with the stored token; when
    that answer has status 200 it sends no other request. *)
Theorem testSchema_fields_url E sch rest p f base w :
  has_char slash sch = false -> has_char slash p = false -> has_char slash f = false ->
  sassoc "dscc.path" (uprops w) = Some base ->
  (exists more, sent (snd (testSchema E (Some (odata_url sch rest p f)) w)) =
     List.app (sent w) ((base ++ "/projects/" ++ p ++ "/forms/" ++ f ++ "/fields",
                         get_options (sassoc "dscc.token" (uprops w))) :: more)) /\
  (forall r, http E (List.length (sent w)) (base ++ "/projects/" ++ p ++ "/forms/" ++ f ++ "/fields")
                  (get_options (sassoc "dscc.token" (uprops w))) = Some r ->
     code r = 200%Z ->
     sent (snd (testSchema E (Some (odata_url sch rest p f)) w)) =
     List.app (sent w) [(base ++ "/projects/" ++ p ++ "/forms/" ++ f ++ "/fields",
                         get_options (sassoc "dscc.token" (uprops w)))]).
Proof.
  intros Hs Hp Hf Hb. rewrite (testSchema_odata E sch rest p f base w Hs Hp Hf Hb). split.
  - apply fetch_then. intro x. appends; try apply appends_setToken.
  - intros r Hr Hc. unfold mbind at 1, fetch at 1. rewrite Hr. rewrite Hc. cbn [negb Z.eqb Pos.eqb].
    unfold mbind, ret, parse_json. rewrite Hc. cbn [negb Z.eqb Pos.eqb].
    destruct (json_parse E (content r)); reflexivity.
Qed.

Lemma testSchema_fields_url_witness :
  (exists more, sent (snd (testSchema env_denied (Some (odata_url "https:" "h/v1" "1" "f")) w_logged)) =
     List.app (sent w_logged)
       (("https://h/v1" ++ "/projects/" ++ "1" ++ "/forms/" ++ "f" ++ "/fields",
         get_options (sassoc "dscc.token" (uprops w_logged))) :: more)) /\
  (forall r, http env_denied (List.length (sent w_logged))
                  ("https://h/v1" ++ "/projects/" ++ "1" ++ "/forms/" ++ "f" ++ "/fields")
                  (get_options (sassoc "dscc.token" (uprops w_logged))) = Some r ->
     code r = 200%Z ->
     sent (snd (testSchema env_denied (Some (odata_url "https:" "h/v1" "1" "f")) w_logged)) =
     List.app (sent w_logged) [("https://h/v1" ++ "/projects/" ++ "1" ++ "/forms/" ++ "f" ++ "/fields",
                                get_options (sassoc "dscc.token" (uprops w_logged)))]).
Proof.
  apply (testSchema_fields_url env_denied "https:" "h/v1" "1" "f" "https://h/v1" w_logged);
    discharge.
Defined.

(** X21: [testSchema] returns a schema only when its last request was
    answered with status 200, and the schema is that answer's parsed
    content. *)
Theorem testSchema_value_from_last_200 E c w v w' :
  testSchema E c w = (Val v, w') ->
  exists pre u r resp,
    sent w' = List.app pre [(u, r)] /\ http E (List.length pre) u r = Some resp /\
    code resp = 200%Z /\ json_parse E (content resp) = Some v.
Proof.
  intro H. unfold testSchema in H. peel H.
  apply fetch_val in Hm3 as [Hr1 ->].
  destruct (code a3 =? 200)%Z eqn:C1; cbn [negb] in Hm4.
  - unfold ret in Hm4. injection Hm4 as <- <-.
    rewrite C1 in H. cbn [negb] in H. apply parse_json_val in H as [Hj ->].
    apply Z.eqb_eq in C1. eexists _, _, _, a3. cbn [sent]. eauto.
  - peel Hm4. apply fetch_val in Hm4 as [Hr2 ->].
    destruct (code a4 =? 200)%Z eqn:C2; cbn [negb] in H; [|discriminate].
    apply parse_json_val in H as [Hj ->]. apply Z.eqb_eq in C2.
    eexists _, _, _, a4. cbn [sent]. eauto.
Qed.

Lemma testSchema_value_from_last_200_witness :
  exists pre u r resp,
    sent (snd (testSchema env_ok (Some sample_url) w_logged)) = List.app pre [(u, r)] /\
    http env_ok (List.length pre) u r = Some resp /\
    code resp = 200%Z /\ json_parse env_ok (content resp) = Some j_ok.
Proof.
  apply (testSchema_value_from_last_200 env_ok (Some sample_url) w_logged j_ok
           (snd (testSchema env_ok (Some sample_url) w_logged))); discharge.
Defined.

(** ** [getConfig] *)

(** X22: when the reset checkbox is ticked, [getConfig] deletes every
    stored property, sends no request and throws the logged-out error. *)
Theorem getConfig_reset_logs_out E cp w :
  cp_reset_auth cp = true ->
  getConfig E (Some cp) w =
  (Exc (UserError logged_out_text), {| uprops := []; sent := sent w |}).
Proof.
  intro H. unfold getConfig, mbind, getProperty. cbn [fst snd]. rewrite H. reflexivity.
Qed.

Lemma getConfig_reset_logs_out_witness :
  getConfig env_ok (Some {| cp_URL := sample_url; cp_table := None; cp_reset_auth := true |}) w_logged =
  (Exc (UserError logged_out_text), {| uprops := []; sent := sent w_logged |}).
Proof.
  apply (getConfig_reset_logs_out env_ok
           {| cp_URL := sample_url; cp_table := None; cp_reset_auth := true |} w_logged);
    discharge.
Defined.

(** X23: when a table is chosen and [getConfig] succeeds, the row count
    it stores in [totalNumRows] is the one its [number of rows] item shows,
    and the configuration is no longer stepped. *)
Theorem getConfig_stores_shown_count E cp tbl w cfg w' :
  cp_table cp = Some tbl ->
  getConfig E (Some cp) w = (Val cfg, w') ->
  exists n, sassoc "totalNumRows" (uprops w') = Some n /\
    In (Info "number of rows" ("there are " ++ n ++ " rows in this table")) (items cfg) /\
    stepped cfg = Some false.
Proof.
  intros Ht H. unfold getConfig in H. peel H.
  destruct (cp_reset_auth cp);
    [unfold mbind, resetAuth, deleteAllProperties, throw in H; discriminate|].
  peel H. rewrite Ht in H. peel H.
  unfold setProperty in Hm3. injection Hm3 as _ <-.
  unfold ret in H. injection H as <- <-.
  exists a2. cbn [uprops]. rewrite sassoc_supdate. split; [reflexivity|].
  cbn [items add_item set_stepped stepped]. split; [|reflexivity].
  rewrite !in_app_iff. cbn. tauto.
Qed.

Lemma getConfig_stores_shown_count_witness :
  exists n, sassoc "totalNumRows" (uprops (snd (getConfig env_ok (Some cp_table_step) w_logged))) = Some n /\
    In (Info "number of rows" ("there are " ++ n ++ " rows in this table"))
       (items (config_of (fst (getConfig env_ok (Some cp_table_step) w_logged)))) /\
    stepped (config_of (fst (getConfig env_ok (Some cp_table_step) w_logged))) = Some false.
Proof.
  apply (getConfig_stores_shown_count env_ok cp_table_step "Submissions" w_logged
           (config_of (fst (getConfig env_ok (Some cp_table_step) w_logged)))
           (snd (getConfig env_ok (Some cp_table_step) w_logged))); discharge.
Defined.

(** ** Field types and values *)

(** X24: a field is a metric exactly when its OData type is [int],
    [boolean] or [decimal]; every other type gives a dimension. *)
Theorem getGDSType_metric t :
  fst (getGDSType t) = Metric <-> t = "int" \/ t = "boolean" \/ t = "decimal".
Proof.
  unfold getGDSType.
  repeat match goal with
  | |- context [String.eqb ?a ?b] => destruct (String.eqb_spec a b)
  end; subst; cbn; split; intro H; try discriminate; try tauto;
  repeat destruct H as [H|H]; subst; try discriminate; congruence.
Qed.

(** X25: the path of an accuracy column [g-accuracy] is read from
    [g/properties/accuracy] in the record. *)
Theorem handleGeoAccuracyField_accuracy sp g :
  handleGeoAccuracyField (List.app sp [g ++ "-accuracy"]) =
  Ok (List.app sp [g; "properties"; "accuracy"]).
Proof.
  unfold handleGeoAccuracyField. rewrite rev_unit.
  destruct (includes "-accuracy" (g ++ "-accuracy")) eqn:E.
  - rewrite removelast_last, str_length_app.
    replace (String.length g + String.length "-accuracy" - 9) with (String.length g)
      by (cbn; lia).
    rewrite substring0_app. reflexivity.
  - apply includes_suffix in E. discriminate.
Qed.

(** X26: a converted date-time value contains no [-], no [T] and no
    [:]. *)
Theorem convertData_dateTime_clean u s i d :
  convertData u (JStr s) YEAR_MONTH_DAY_HOUR i = Ok (JStr d) ->
  has_char dash d = false /\ has_char letterT d = false /\ has_char colon d = false.
Proof.
  cbn. intro H. injection H as <-. repeat split.
  - apply split_char_hd_keep, has_char_remove. unfold is_dash_or_T.
    rewrite Ascii.eqb_refl. reflexivity.
  - apply split_char_hd_keep, has_char_remove. unfold is_dash_or_T.
    rewrite Ascii.eqb_refl, orb_true_r. reflexivity.
  - apply split_char_hd_clean.
Qed.

Lemma convertData_dateTime_clean_witness :
  has_char dash "2021031712" = false /\ has_char letterT "2021031712" = false /\
  has_char colon "2021031712" = false.
Proof.
  apply (convertData_dateTime_clean u0 "2021-03-17T12:34:56" "" "2021031712"); discharge.
Defined.
